(** * Benchmark harness of the entity standardizer (run_tests.py)

    A shallow embedding of [aca_entity_standardizer/run_tests.py]: the phrase
    combinator, the autocomplete and entity-linking strategies, the top-k
    scorer and the two runners, followed by the properties the specification
    states about them.

    Python values are modelled as follows.
    - [int] is [Z]; [len] and [enumerate] indices are non-negative.
    - [str] is [string]; [list] is [list].
    - [dict] is an association list in insertion order with pairwise distinct
      keys; assigning to a key that is present replaces the value in place.
    - The remote services, the log file and standard output are a state
      threaded through the program; an uncaught exception ends the run. *)

From Stdlib Require Import List String Ascii ZArith Lia Bool Sorted Permutation.
From Stdlib Require Import DecimalString.
From Stdlib Require DecimalZ FinFun.
Import ListNotations.

Local Open Scope string_scope.
Local Open Scope Z_scope.
Local Open Scope list_scope.

(** ** Python primitives *)

Module Py.

Definition len {A : Type} (l : list A) : Z := Z.of_nat (List.length l).

(** [range(start, stop, 1)] *)
Definition range (start stop : Z) : list Z :=
  map (fun k => start + Z.of_nat k) (seq 0 (Z.to_nat (stop - start))).

(** Normalisation of a slice bound: a negative bound counts from the end,
    and the result is clamped to [0 .. len l]. *)
Definition bound {A : Type} (l : list A) (i : Z) : nat :=
  Z.to_nat (Z.min (len l) (if i <? 0 then Z.max 0 (len l + i) else i)).

(** [l[:stop]] *)
Definition slice_to {A : Type} (l : list A) (stop : Z) : list A :=
  firstn (bound l stop) l.

(** [l[start:]] *)
Definition slice_from {A : Type} (l : list A) (start : Z) : list A :=
  skipn (bound l start) l.

(** [sep.join(l)] *)
Definition join (sep : string) (l : list string) : string :=
  String.concat sep l.

(** [s.split(sep)] for a one-character separator: every occurrence of the
    separator cuts, so adjacent separators give empty strings and the
    result is never empty. *)
Fixpoint split (sep : ascii) (s : string) : list string :=
  match s with
  | EmptyString => [EmptyString]
  | String c s' =>
      if Ascii.eqb c sep then EmptyString :: split sep s'
      else match split sep s' with
           | [] => [String c EmptyString]
           | w :: ws => String c w :: ws
           end
  end.

(** [enumerate(l)] *)
Definition enumerate {A : Type} (l : list A) : list (Z * A) :=
  combine (map Z.of_nat (seq 0 (List.length l))) l.

(** [str(i)] for an integer. *)
Definition str (i : Z) : string :=
  NilZero.string_of_int (Z.to_int i).

(** [x in l] on strings. *)
Definition mem (x : string) (l : list string) : bool :=
  existsb (String.eqb x) l.

(** [sorted(l, key=key)]: ascending and stable (elements with equal keys
    keep their order), as an insertion sort from the right. *)
Fixpoint insert_by {A : Type} (key : A -> Z) (x : A) (l : list A) : list A :=
  match l with
  | [] => [x]
  | y :: l' => if key y <? key x then y :: insert_by key x l' else x :: y :: l'
  end.

Fixpoint sorted {A : Type} (key : A -> Z) (l : list A) : list A :=
  match l with
  | [] => []
  | x :: l' => insert_by key x (sorted key l')
  end.

End Py.

(** ** Dictionaries *)

Definition dict (V : Type) : Type := list (string * V).

(** [d.get(k, None)] *)
Fixpoint dict_get {V : Type} (d : dict V) (k : string) : option V :=
  match d with
  | [] => None
  | (k', v) :: d' => if String.eqb k' k then Some v else dict_get d' k
  end.

(** [d[k] = v] *)
Fixpoint dict_set {V : Type} (d : dict V) (k : string) (v : V) : dict V :=
  match d with
  | [] => [(k, v)]
  | (k', v') :: d' =>
      if String.eqb k' k then (k', v) :: d' else (k', v') :: dict_set d' k v
  end.

Definition dict_keys {V : Type} (d : dict V) : list string := map fst d.

(** [{k: v for k, v in items}] *)
Definition dict_of_items {V : Type} (items : list (string * V)) : dict V :=
  fold_left (fun d kv => dict_set d (fst kv) (snd kv)) items [].

(** Keys are pairwise distinct. *)
Definition dict_wf {V : Type} (d : dict V) : Prop := NoDup (dict_keys d).

(** ** PhraseCombinator: [get_data_combinations] *)

Definition get_data_combinations (data : list string) : list string :=
  let combinations := [] in
  let combinations := combinations ++ [Py.join " " data] in
  let combinations :=
    fold_left (fun combinations i =>
                 combinations ++ [Py.join " " (Py.slice_to data (- i))])
              (Py.range 1 (Py.len data)) combinations in
  let combinations :=
    fold_left (fun combinations i =>
                 combinations ++ [Py.join " " (Py.slice_from data i)])
              (Py.range 1 (Py.len data)) combinations in
  combinations.

(** ** AccuracyScorer: the tally of [get_topk_accuracy] *)

(** The tuple [topk = (top-1, top-3, top-5, top-10, top-inf)]. *)
Record tally : Type := Topk {
  top1 : Z; top3 : Z; top5 : Z; top10 : Z; topinf : Z
}.

Definition topk_init : tally := Topk 0 0 0 0 0.

(** The body of [if qid == correct_qid:] at index [i], up to the [break]. *)
Definition bucket_hit (topk : tally) (i : Z) : tally :=
  let topk := Topk (top1 topk) (top3 topk) (top5 topk) (top10 topk) (topinf topk + 1) in
  let topk := if i <=? 0
              then Topk (top1 topk + 1) (top3 topk) (top5 topk) (top10 topk) (topinf topk)
              else topk in
  let topk := if i <=? 2
              then Topk (top1 topk) (top3 topk + 1) (top5 topk) (top10 topk) (topinf topk)
              else topk in
  let topk := if i <=? 4
              then Topk (top1 topk) (top3 topk) (top5 topk + 1) (top10 topk) (topinf topk)
              else topk in
  let topk := if i <=? 9
              then Topk (top1 topk) (top3 topk) (top5 topk) (top10 topk + 1) (topinf topk)
              else topk in
  topk.

(** [for i, qid in enumerate(qids): ...], entered at index [i]; the [break]
    is the branch that does not recurse. *)
Fixpoint scan_qids (topk : tally) (correct_qid : string) (i : Z)
         (qids : list string) : tally :=
  match qids with
  | [] => topk
  | qid :: rest =>
      if String.eqb qid correct_qid then bucket_hit topk i
      else scan_qids topk correct_qid (i + 1) rest
  end.

(** One iteration of [for mention in data_to_qid:], given the value of
    [alg_qids.get(mention, None)]. [None] and the empty list are both falsy,
    so both take the [continue]. *)
Definition score_mention (topk : tally) (correct_qid : string)
           (qids : option (list string)) : tally :=
  match qids with
  | None => topk
  | Some [] => topk
  | Some qids => scan_qids topk correct_qid 0 qids
  end.

(** The whole loop. Iterating the keys of [data_to_qid] and reading
    [data_to_qid[mention]] visits the items in insertion order. *)
Definition topk_counts (data_to_qid : dict string)
           (alg_qids : dict (list string)) : tally :=
  fold_left (fun topk item =>
               let mention := fst item in
               let correct_qid := snd item in
               score_mention topk correct_qid (dict_get alg_qids mention))
            data_to_qid topk_init.

(** The buckets are nested. *)
Definition nested (t : tally) : Prop :=
  top1 t <= top3 t /\ top3 t <= top5 t /\ top5 t <= top10 t /\ top10 t <= topinf t.

(** ** Effects: remote services, log file, standard output, exceptions *)

(** The exceptions that can escape the functions below. *)
Inductive exn : Type :=
| KeyError (key : string)
| ZeroDivisionError
| IndexError.

Inductive result (A : Type) : Type :=
| Ok (a : A)
| Raise (e : exn).
Arguments Ok {A} a.
Arguments Raise {A} e.

(** A quotient [num / den] whose divisor is not zero, kept exact: the float
    value and its two-decimal rendering are not modelled. *)
Record ratio : Type := Ratio { num : Z; den : Z }.

(** One record of the batched entity-linking payload. *)
Record el_record : Type := ElRecord {
  el_id : Z;
  el_mention : string;
  el_context_left : string;
  el_context_right : string
}.

(** Outbound HTTP requests. The autocomplete request is identified by its
    query text; URL quoting is not modelled. *)
Inductive request : Type :=
| WdGet (query : string)
| ElPost (payload : list el_record).

(** What [requests.get(...).json()] gives the autocomplete strategy.
    [WdFailure] is any exception raised before the candidate loop starts.
    In [WdJson], a candidate without an ['id'] field is [None]. *)
Inductive wd_reply : Type :=
| WdFailure
| WdJson (success : Z) (search : list (option string)).

(** What [requests.post(...).json()] gives the entity-linking strategy.
    [ElFailure] is an exception of the call or of the JSON decoding. In
    [ElJson] each returned id carries its [top_k_entities] already evaluated
    to a list of pairs. *)
Inductive el_reply (Score : Type) : Type :=
| ElFailure
| ElJson (candidates : dict (list (Score * string))).
Arguments ElFailure {Score}.
Arguments ElJson {Score} candidates.

(** Records written through [logging], one constructor per call site; the
    message text is reduced to the values that identify the event. *)
Inductive log_record : Type :=
| LogFailedQuery (query : string)
| LogQueryError (query : string)
| LogNoQids (data : string)
| LogNotIn (data qid : string) (wd : list string)
| LogMentionNotFound (mention : string).

Inductive strategy : Type := ElNoCtx | WdApi | ElSoftware.

(** Lines written by [print], one constructor per call site. [OutTook]
    is the prefix printed with [end=''] before each report of
    [run_zero_shot]. *)
Inductive output : Type :=
| OutElError
| OutRule
| OutZeroShotBanner (mentions : Z)
| OutTook (s : strategy)
| OutTopk (r1 r3 r5 r10 rinf : ratio) (hits : Z)
| OutFewShotBanner (mentions : Z)
| OutFewShot (accuracy : ratio).

Section Harness.

Context {World Score : Type}.

(** The autocomplete service and the entity-linking service. *)
Variable wd_get : World -> string -> wd_reply * World.
Variable el_post : World -> list el_record -> el_reply Score * World.

Record state : Type := State {
  world : World;
  sent : list request;
  logged : list log_record;
  printed : list output
}.

Definition M (A : Type) : Type := state -> result A * state.

Definition ret {A : Type} (a : A) : M A := fun st => (Ok a, st).

Definition bind {A B : Type} (c : M A) (k : A -> M B) : M B :=
  fun st => match c st with
            | (Ok a, st') => k a st'
            | (Raise e, st') => (Raise e, st')
            end.

Definition raise {A : Type} (e : exn) : M A := fun st => (Raise e, st).

Notation "x <- c ;; k" := (bind c (fun x => k))
  (at level 61, c at next level, right associativity).
Notation "c ;; k" := (bind c (fun _ => k))
  (at level 61, right associativity).

Definition logging (r : log_record) : M unit :=
  fun st => (Ok tt, State (world st) (sent st) (logged st ++ [r]) (printed st)).

Definition print (o : output) : M unit :=
  fun st => (Ok tt, State (world st) (sent st) (logged st) (printed st ++ [o])).

Definition requests_get (query : string) : M wd_reply :=
  fun st => let (reply, w) := wd_get (world st) query in
            (Ok reply, State w (sent st ++ [WdGet query]) (logged st) (printed st)).

Definition requests_post (payload : list el_record) : M (el_reply Score) :=
  fun st => let (reply, w) := el_post (world st) payload in
            (Ok reply, State w (sent st ++ [ElPost payload]) (logged st) (printed st)).

(** [for x in l: acc = f(acc, x)] *)
Fixpoint for_each {A B : Type} (f : B -> A -> M B) (l : list A) (acc : B) : M B :=
  match l with
  | [] => ret acc
  | x :: l' => acc' <- f acc x ;; for_each f l' acc'
  end.

(** [[f(x) for x in l]], in order. *)
Fixpoint map_each {A B : Type} (f : A -> M B) (l : list A) : M (list B) :=
  match l with
  | [] => ret []
  | x :: l' => y <- f x ;; ys <- map_each f l' ;; ret (y :: ys)
  end.

(** [d[k]] *)
Definition dict_index {V : Type} (d : dict V) (k : string) : M V :=
  match dict_get d k with
  | Some v => ret v
  | None => raise (KeyError k)
  end.

(** [a / b] *)
Definition py_truediv (a b : Z) : M ratio :=
  if b =? 0 then raise ZeroDivisionError else ret (Ratio a b).

(** *** CandidateAggregator: autocomplete strategy *)

(** [for candidate in candidates['search']: qids.append(candidate['id'])]
    inside the [try]: a missing ['id'] is caught and logged, and the
    identifiers appended so far are kept. *)
Fixpoint collect_ids (data : string) (search : list (option string))
         (qids : list string) : M (list string) :=
  match search with
  | [] => ret qids
  | Some id :: rest => collect_ids data rest (qids ++ [id])
  | None :: _ => logging (LogQueryError data) ;; ret qids
  end.

Definition invoke_wikidata_api (data : string) : M (list string) :=
  let qids := [] in
  reply <- requests_get data ;;
  match reply with
  | WdFailure => logging (LogQueryError data) ;; ret qids
  | WdJson success search =>
      if negb (success =? 1) then logging (LogFailedQuery data) ;; ret qids
      else collect_ids data search qids
  end.

(** [for i, frag in enumerate(fragments): ...] of [get_wikidata_qids] *)
Definition valid_fragments (fragments : list string) : M (dict (list string)) :=
  for_each (fun data_to_qids frag =>
              frqids <- invoke_wikidata_api frag ;;
              ret (match frqids with
                   | [] => data_to_qids
                   | _ :: _ => dict_set data_to_qids frag frqids
                   end))
           fragments [].

(** [for i, comb in enumerate(combinations): qids += invoke_wikidata_api(comb)] *)
Definition query_combinations (combinations : list string)
           (qids : list string) : M (list string) :=
  for_each (fun qids comb =>
              r <- invoke_wikidata_api comb ;;
              ret (qids ++ r))
           combinations qids.

Definition get_wikidata_qids (data : string) : M (dict (list string)) :=
  let wd_qids := [] in
  let qids := [] in
  r <- invoke_wikidata_api data ;;
  let qids := qids ++ r in
  let fragments := Py.split " "%char data in
  data_to_qids <- valid_fragments fragments ;;
  let combinations := get_data_combinations fragments in
  qids <- query_combinations combinations qids ;;
  let data_to_qids :=
    dict_of_items (Py.sorted (fun item => Py.len (snd item)) data_to_qids) in
  let valid_data := dict_keys data_to_qids in
  let combinations := get_data_combinations valid_data in
  qids <- query_combinations combinations qids ;;
  match qids with
  | [] => logging (LogNoQids data)
  | _ :: _ => ret tt
  end ;;
  ret (dict_set wd_qids data qids).

(** [pool.map] returns the results in the order of the keys; the workers
    share no Python state, and their requests are taken in key order. *)
Definition run_wikidata_autocomplete (data_to_qid : dict string)
  : M (dict (list string)) :=
  wd_results <- map_each get_wikidata_qids (dict_keys data_to_qid) ;;
  ret (dict_of_items (List.concat wd_results)).

(** *** CandidateAggregator: entity-linking strategy *)

(** [el_qids[mention].append(qid)] *)
Definition dict_append (d : dict (list string)) (k : string) (v : string)
  : dict (list string) :=
  match dict_get d k with
  | Some l => dict_set d k (l ++ [v])
  | None => d
  end.

Definition run_entity_linking (data_to_qid : dict string) (context : string)
  : M (dict (list string)) :=
  let payload := [] in
  let id_to_data := [] in
  let '(payload, id_to_data) :=
    fold_left (fun acc item =>
                 let '(payload, id_to_data) := acc in
                 let '(i, (data, qid)) := item in
                 (payload ++ [ElRecord i data "" context],
                  dict_set id_to_data (Py.str i) (data, qid)))
              (Py.enumerate data_to_qid) (payload, id_to_data) in
  let el_qids := [] in
  reply <- requests_post payload ;;
  match reply with
  | ElFailure => print OutElError ;; ret el_qids
  | ElJson candidates =>
      for_each (fun el_qids item =>
                  let '(i, top_k_entities) := item in
                  entry <- dict_index id_to_data i ;;
                  let mention := fst entry in
                  let el_qids :=
                    dict_set el_qids mention
                             (match dict_get el_qids mention with
                              | Some l => l
                              | None => []
                              end) in
                  let cdata := top_k_entities in
                  ret (fold_left (fun el_qids candidate =>
                                    let qid := snd candidate in
                                    dict_append el_qids mention qid)
                                 cdata el_qids))
               candidates el_qids
  end.

(** *** AccuracyScorer: [get_topk_accuracy] *)

(** The five quotients of the report line are evaluated left to right
    before the line is printed. *)
Definition get_topk_accuracy (data_to_qid : dict string)
           (alg_qids : dict (list string)) : M unit :=
  let total_mentions := Py.len data_to_qid in
  let topk := topk_counts data_to_qid alg_qids in
  r1 <- py_truediv (top1 topk) total_mentions ;;
  r3 <- py_truediv (top3 topk) total_mentions ;;
  r5 <- py_truediv (top5 topk) total_mentions ;;
  r10 <- py_truediv (top10 topk) total_mentions ;;
  rinf <- py_truediv (topinf topk) total_mentions ;;
  print (OutTopk r1 r3 r5 r10 rinf (topinf topk)).

(** *** ZeroShotRunner

    [run_zero_shot] from the point where [data_to_qid] has been read from
    the test file. Timing is not modelled. *)
Definition run_zero_shot (data_to_qid : dict string) : M unit :=
  print OutRule ;;
  print (OutZeroShotBanner (Py.len data_to_qid)) ;;
  print OutRule ;;
  el_qids <- run_entity_linking data_to_qid "" ;;
  print (OutTook ElNoCtx) ;;
  get_topk_accuracy data_to_qid el_qids ;;
  wd_qids <- run_wikidata_autocomplete data_to_qid ;;
  print (OutTook WdApi) ;;
  get_topk_accuracy data_to_qid wd_qids ;;
  elctx_qids <- run_entity_linking data_to_qid "software" ;;
  print (OutTook ElSoftware) ;;
  get_topk_accuracy data_to_qid elctx_qids ;;
  for_each (fun _ item =>
              let '(data, qid) := item in
              el <- dict_index elctx_qids data ;;
              if Py.mem qid el then
                wd <- dict_index wd_qids data ;;
                if negb (Py.mem qid wd) then
                  wd <- dict_index wd_qids data ;;
                  logging (LogNotIn data qid wd)
                else ret tt
              else ret tt)
           data_to_qid tt.

(** *** FewShotRunner

    [run_few_shot] from the point where the rows of the [entities] table
    and [data_to_eid] have been read. [tech_sim_scores] is the answer of
    the local standardizer, one entry per mention by position; the code
    reads the predicted entity name at [entity[0]]. *)

(** [entity[0]] *)
Definition py_first (entity : list string) : M string :=
  match entity with
  | [] => raise IndexError
  | name :: _ => ret name
  end.

(** [not correct_eid] *)
Definition falsy (eid : option string) : bool :=
  match eid with
  | None => true
  | Some s => String.eqb s ""
  end.

(** [correct_eid != predicted_eid] *)
Definition py_ne (a b : option string) : bool :=
  match a, b with
  | None, None => false
  | Some x, Some y => negb (String.eqb x y)
  | _, _ => true
  end.

Definition run_few_shot (entities : list (string * string * string * string))
           (data_to_eid : dict string) (tech_sim_scores : list (list string))
  : M unit :=
  let entity_to_eid :=
    fold_left (fun entity_to_eid entity_tuple =>
                 let '(entity_id, entity, entity_type_id, external_link) :=
                   entity_tuple in
                 dict_set entity_to_eid entity entity_id)
              entities [] in
  let mentions := dict_keys data_to_eid in
  let num_correct := 0 in
  num_correct <-
    for_each (fun num_correct item =>
                let '(mention, entity) := item in
                let correct_eid := dict_get data_to_eid mention in
                name <- py_first entity ;;
                let predicted_eid := dict_get entity_to_eid name in
                (if falsy correct_eid
                 then logging (LogMentionNotFound mention)
                 else ret tt) ;;
                ret (if py_ne correct_eid predicted_eid
                     then num_correct + 1
                     else num_correct))
             (combine mentions tech_sim_scores) num_correct ;;
  print OutRule ;;
  print (OutFewShotBanner (Py.len mentions)) ;;
  print OutRule ;;
  accuracy <- py_truediv num_correct (Py.len mentions) ;;
  print (OutFewShot accuracy).

End Harness.

Arguments State {World} world sent logged printed.

(** ** Replies as data

    The dictionary that the fragment loop of [get_wikidata_qids] has built
    once the replies [frs] to the per-token queries are known: a token is
    recorded when its reply is not empty. *)
Definition record_valid (replies : list (string * list string))
           (data_to_qids : dict (list string)) : dict (list string) :=
  fold_left (fun data_to_qids fr =>
               match snd fr with
               | [] => data_to_qids
               | _ :: _ => dict_set data_to_qids (fst fr) (snd fr)
               end)
            replies data_to_qids.

(** The sort key of [get_wikidata_qids]: [len(item[1])]. *)
Definition candidate_count (item : string * list string) : Z :=
  Py.len (snd item).

(** ** Sample services *)

(** Both services are unreachable: every call raises. *)
Definition offline_wd (w : unit) (query : string) : wd_reply * unit :=
  (WdFailure, w).

Definition offline_el (w : unit) (payload : list el_record)
  : el_reply string * unit :=
  (ElFailure, w).

(** An autocomplete service answering from a fixed table. *)
Definition table_wd (table : dict (list string)) (w : unit) (query : string)
  : wd_reply * unit :=
  (WdJson 1 (map Some (match dict_get table query with
                       | Some ids => ids
                       | None => []
                       end)), w).

Definition sample_table : dict (list string) :=
  [("apache", ["Q1"; "Q2"; "Q3"]); ("tomcat", ["Q4"]); ("apache tomcat", ["Q4"; "Q5"])].

(** An entity-linking service that answers for the first record only. *)
Definition first_only_el (w : unit) (payload : list el_record)
  : el_reply string * unit :=
  (ElJson [("0", [("0.9", "Q1")])], w).

Definition start : @state unit := State tt [] [] [].

(** ** Reading a test file

    [for row in test: (data, qid) = tuple(row.split('\t')); data_to_qid[data] = qid]
    of [run_zero_shot] and [run_few_shot], where [test] holds the stripped
    lines. Unpacking a row that does not split into exactly two fields raises
    [ValueError], which the surrounding [except OSError] does not catch:
    that outcome is [None]. *)
Definition load_rows (test : list string) : option (dict string) :=
  fold_left (fun data_to_qid row =>
               match data_to_qid with
               | None => None
               | Some data_to_qid =>
                   match Py.split "009"%char row with
                   | [data; qid] => Some (dict_set data_to_qid data qid)
                   | _ => None
                   end
               end)
            test (Some []).

(** ** Top-k membership

    The glossary's reading of a hit: the correct identifier is among the
    first [k] ranked candidates ([None] for no limit). *)
Definition within (k : option nat) (alg_qids : dict (list string))
           (item : string * string) : bool :=
  match dict_get alg_qids (fst item) with
  | None => false
  | Some qids =>
      Py.mem (snd item) (match k with Some k => firstn k qids | None => qids end)
  end.

Definition hits (k : option nat) (data_to_qid : dict string)
           (alg_qids : dict (list string)) : Z :=
  Py.len (filter (within k alg_qids) data_to_qid).

(** ** Utils (aca_backend_api/service/utils.py) *)

Module Utils.

(** A Python [str] as the sequence of its code points. *)
Definition ustr : Type := list N.

(** The class [[\x00-\x7F]]. *)
Definition is_ascii (c : N) : bool := (c <=? 127)%N.

(** [str.isspace] on one code point. *)
Definition is_space (c : N) : bool :=
  ((9 <=? c) && (c <=? 13) || (28 <=? c) && (c <=? 32)
   || (c =? 133) || (c =? 160) || (c =? 5760)
   || (8192 <=? c) && (c <=? 8202)
   || (c =? 8232) || (c =? 8233) || (c =? 8239) || (c =? 8287)
   || (c =? 12288))%N.

(** [re.sub(r'[^\x00-\x7F]+', " ", s)]: every maximal run of code points
    outside the class becomes one space. [in_run] tells that the previous
    code point belonged to such a run. *)
Fixpoint sub_non_ascii (in_run : bool) (s : ustr) : ustr :=
  match s with
  | [] => []
  | c :: s' =>
      if is_ascii c then c :: sub_non_ascii false s'
      else if in_run then sub_non_ascii true s'
           else 32%N :: sub_non_ascii true s'
  end.

(** [s.lstrip()], [s.rstrip()], [s.strip()] *)
Fixpoint lstrip (s : ustr) : ustr :=
  match s with
  | [] => []
  | c :: s' => if is_space c then lstrip s' else s
  end.

Definition rstrip (s : ustr) : ustr := rev (lstrip (rev s)).

Definition strip (s : ustr) : ustr := rstrip (lstrip s).

(** [preprocess_tech_stack_for_sim] on a [str] argument, for which
    [str(tech_stack)] is the argument itself and nothing raises. *)
Definition preprocess_tech_stack_for_sim (tech_stack : ustr) : ustr :=
  strip (sub_non_ascii false ([32%N] ++ tech_stack ++ [32%N])).

(** [mergeDicts] on dictionaries of dictionaries; [None] is Python's [None].
    A falsy [result] is replaced by a fresh empty dictionary, a falsy
    [app_tech] returns at once and a falsy [obj] is skipped. *)
Definition mergeDicts (result app_tech : option (dict (dict string)))
  : dict (dict string) :=
  let result := match result with
                | None => []
                | Some [] => []
                | Some result => result
                end in
  match app_tech with
  | None => result
  | Some [] => result
  | Some app_tech =>
      fold_left
        (fun result item =>
           let '(snippet, obj) := item in
           match obj with
           | [] => result
           | _ :: _ =>
               fold_left
                 (fun result entry =>
                    let '(tech, version) := entry in
                    let result :=
                      match dict_get result snippet with
                      | None => dict_set result snippet []
                      | Some _ => result
                      end in
                    match dict_get result snippet with
                    | Some inner => dict_set result snippet (dict_set inner tech version)
                    | None => result
                    end)
                 obj result
           end)
        app_tech result
  end.

(** The bodies of the inner and of the outer loop of [mergeDicts]. *)
Definition merge_entry (snippet : string) (result : dict (dict string))
           (entry : string * string) : dict (dict string) :=
  let '(tech, version) := entry in
  let result :=
    match dict_get result snippet with
    | None => dict_set result snippet []
    | Some _ => result
    end in
  match dict_get result snippet with
  | Some inner => dict_set result snippet (dict_set inner tech version)
  | None => result
  end.

Definition merge_item (result : dict (dict string))
           (item : string * dict string) : dict (dict string) :=
  let '(snippet, obj) := item in
  match obj with
  | [] => result
  | _ :: _ => fold_left (merge_entry snippet) obj result
  end.

(** [result] after [if not result: result = {}]. *)
Definition or_empty (result : option (dict (dict string))) : dict (dict string) :=
  match result with
  | None => []
  | Some result => result
  end.

(** [d[snippet][tech]] as a lookup that gives [None] when either key is
    missing. *)
Definition get2 (d : dict (dict string)) (snippet tech : string) : option string :=
  match dict_get d snippet with
  | Some inner => dict_get inner tech
  | None => None
  end.

(** A string that needs no preprocessing: only code points of the class
    and no white space at either end. *)
Definition clean (s : ustr) : Prop :=
  Forall (fun c => is_ascii c = true) s
  /\ (forall c t, s = c :: t -> is_space c = false)
  /\ (forall t c, s = t ++ [c] -> is_space c = false).

(** The code points that carry content: in the class and not white space. *)
Definition is_content (c : N) : bool := is_ascii c && negb (is_space c).

(** Both levels have pairwise distinct keys. *)
Definition nested_wf (d : dict (dict string)) : Prop :=
  dict_wf d /\ Forall (fun item => dict_wf (snd item)) d.

End Utils.

(** ** Entity-linking replies as data

    The payload and the table [id_to_data] that the first loop of
    [run_entity_linking] builds, and the effect of its second loop on
    [el_qids] once the reply is known. *)
Definition el_payload (data_to_qid : dict string) (context : string)
  : list el_record :=
  map (fun item => ElRecord (fst item) (fst (snd item)) "" context)
      (Py.enumerate data_to_qid).

Definition id_table (data_to_qid : dict string) : dict (string * string) :=
  map (fun item => (Py.str (fst item), snd item)) (Py.enumerate data_to_qid).

Definition link_step {Score : Type} (id_to_data : dict (string * string))
           (el_qids : dict (list string)) (item : string * list (Score * string))
  : result (dict (list string)) :=
  match dict_get id_to_data (fst item) with
  | None => Raise (KeyError (fst item))
  | Some entry =>
      Ok (dict_set el_qids (fst entry)
                   ((match dict_get el_qids (fst entry) with
                     | Some l => l
                     | None => []
                     end) ++ map snd (snd item)))
  end.

Fixpoint link_all {Score : Type} (id_to_data : dict (string * string))
         (candidates : dict (list (Score * string)))
         (el_qids : dict (list string)) : result (dict (list string)) :=
  match candidates with
  | [] => Ok el_qids
  | item :: candidates =>
      match link_step id_to_data el_qids item with
      | Ok el_qids => link_all id_to_data candidates el_qids
      | Raise e => Raise e
      end
  end.


(** Such a service: the only candidate of a record is its mention text. *)
Definition echo_el (w : unit) (payload : list el_record) : el_reply string * unit :=
  (ElJson (map (fun r => (Py.str (el_id r), [("1.0", el_mention r)])) payload), w).

(** [c in s] for a character. *)
Fixpoint contains (c : ascii) (s : string) : bool :=
  match s with
  | EmptyString => false
  | String a s' => Ascii.eqb a c || contains c s'
  end.

(** The line of a test file for a mention and its label. *)
Definition test_row (item : string * string) : string :=
  (fst item ++ String "009" (snd item))%string.

(** * Properties *)

(** ** Python primitives *)

Lemma fold_left_snoc {A B : Type} (f : A -> B) (l : list A) (acc : list B) :
  fold_left (fun acc i => acc ++ [f i]) l acc = acc ++ map f l.
Proof.
  revert acc. induction l as [|x l IH]; intros acc; simpl.
  - now rewrite app_nil_r.
  - rewrite IH, <- app_assoc. reflexivity.
Qed.

Lemma range_from_1 (n : nat) :
  Py.range 1 (Z.of_nat n) = map Z.of_nat (seq 1 (n - 1)).
Proof.
  unfold Py.range.
  replace (Z.to_nat (Z.of_nat n - 1)) with (n - 1)%nat by lia.
  rewrite <- seq_shift, map_map.
  apply map_ext. intros k. lia.
Qed.

Lemma slice_to_drop_last {A : Type} (l : list A) (k : nat) :
  (1 <= k)%nat ->
  Py.slice_to l (- Z.of_nat k) = firstn (List.length l - k) l.
Proof.
  intros Hk. unfold Py.slice_to, Py.bound, Py.len.
  destruct (Z.ltb_spec (- Z.of_nat k) 0) as [_|H]; [|lia].
  f_equal. lia.
Qed.

Lemma slice_from_drop_first {A : Type} (l : list A) (k : nat) :
  (k <= List.length l)%nat ->
  Py.slice_from l (Z.of_nat k) = skipn k l.
Proof.
  intros Hk. unfold Py.slice_from, Py.bound, Py.len.
  destruct (Z.ltb_spec (Z.of_nat k) 0) as [H|_]; [lia|].
  f_equal. lia.
Qed.

(** ** PhraseCombinator *)

Lemma get_data_combinations_eq (data : list string) :
  get_data_combinations data =
    [Py.join " " data]
    ++ map (fun k => Py.join " " (firstn (List.length data - k) data))
           (seq 1 (List.length data - 1))
    ++ map (fun k => Py.join " " (skipn k data))
           (seq 1 (List.length data - 1)).
Proof.
  unfold get_data_combinations, Py.len.
  rewrite !fold_left_snoc, range_from_1, !map_map. simpl.
  f_equal. f_equal.
  - apply map_ext_in. intros k Hk. apply in_seq in Hk.
    rewrite slice_to_drop_last by lia. reflexivity.
  - apply map_ext_in. intros k Hk. apply in_seq in Hk.
    rewrite slice_from_drop_first by lia. reflexivity.
Qed.

Lemma get_data_combinations_length (data : list string) :
  List.length (get_data_combinations data) =
    (1 + (List.length data - 1) + (List.length data - 1))%nat.
Proof.
  rewrite get_data_combinations_eq.
  rewrite !length_app, !length_map, !length_seq. simpl. lia.
Qed.

(** C6. For a non-empty token sequence of length n the result is the full
    phrase, then the phrases obtained by dropping the last 1, 2, ..., n-1
    tokens, then those obtained by dropping the first 1, 2, ..., n-1 tokens;
    it has 2n-1 entries, which is 1 entry when n = 1. *)
Theorem get_data_combinations_shape (data : list string) :
  data <> [] ->
  get_data_combinations data =
    [Py.join " " data]
    ++ map (fun k => Py.join " " (firstn (List.length data - k) data))
           (seq 1 (List.length data - 1))
    ++ map (fun k => Py.join " " (skipn k data))
           (seq 1 (List.length data - 1))
  /\ List.length (get_data_combinations data) = (2 * List.length data - 1)%nat
  /\ (List.length data = 1%nat ->
      get_data_combinations data = [Py.join " " data]).
Proof.
  intros Hne. split; [apply get_data_combinations_eq|]. split.
  - rewrite get_data_combinations_length.
    destruct data; [congruence | simpl; lia].
  - intros H1. rewrite get_data_combinations_eq, H1. reflexivity.
Qed.

Lemma get_data_combinations_shape_witness :
  ["Apache"; "Tomcat"; "HTTP"] <> []
  /\ get_data_combinations ["Apache"; "Tomcat"; "HTTP"] =
       ["Apache Tomcat HTTP"; "Apache Tomcat"; "Apache"; "Tomcat HTTP"; "HTTP"].
Proof.
  split; [discriminate|].
  exact (proj1 (get_data_combinations_shape ["Apache"; "Tomcat"; "HTTP"]
                  ltac:(discriminate))).
Defined.

(** ** AccuracyScorer: one mention *)

Lemma bucket_hit_eq (topk : tally) (i : Z) :
  bucket_hit topk i =
    Topk (top1 topk + (if i <=? 0 then 1 else 0))
         (top3 topk + (if i <=? 2 then 1 else 0))
         (top5 topk + (if i <=? 4 then 1 else 0))
         (top10 topk + (if i <=? 9 then 1 else 0))
         (topinf topk + 1).
Proof.
  unfold bucket_hit. destruct topk as [a b c d e]. simpl.
  destruct (i <=? 0), (i <=? 2), (i <=? 4), (i <=? 9); simpl;
    rewrite ?Z.add_0_r; reflexivity.
Qed.

Lemma scan_qids_first_match (topk : tally) (c : string) (pre post : list string) :
  forall i, ~ In c pre ->
  scan_qids topk c i (pre ++ c :: post) = bucket_hit topk (i + Py.len pre).
Proof.
  unfold Py.len.
  induction pre as [|q pre IH]; intros i Hnot; simpl.
  - rewrite String.eqb_refl. f_equal. lia.
  - destruct (String.eqb_spec q c) as [->|_].
    + exfalso. apply Hnot. now left.
    + rewrite IH by (intros H; apply Hnot; now right).
      f_equal. lia.
Qed.

Lemma scan_qids_no_match (topk : tally) (c : string) (qids : list string) :
  forall i, ~ In c qids -> scan_qids topk c i qids = topk.
Proof.
  induction qids as [|q qids IH]; intros i Hnot; simpl; [reflexivity|].
  destruct (String.eqb_spec q c) as [->|_].
  - exfalso. apply Hnot. now left.
  - apply IH. intros H. apply Hnot. now right.
Qed.

(** C2. When the correct identifier first occurs at index i of a predicted
    list, top-inf goes up by one and top-1, top-3, top-5, top-10 go up by one
    exactly when i <= 0, i <= 2, i <= 4, i <= 9; what follows the first
    occurrence is never looked at. When it does not occur, the tally is
    unchanged. *)
Theorem score_mention_first_occurrence
        (topk : tally) (correct_qid : string) (pre post : list string) :
  ~ In correct_qid pre ->
  score_mention topk correct_qid (Some (pre ++ correct_qid :: post)) =
    Topk (top1 topk + (if Py.len pre <=? 0 then 1 else 0))
         (top3 topk + (if Py.len pre <=? 2 then 1 else 0))
         (top5 topk + (if Py.len pre <=? 4 then 1 else 0))
         (top10 topk + (if Py.len pre <=? 9 then 1 else 0))
         (topinf topk + 1)
  /\ score_mention topk correct_qid (Some pre) = topk.
Proof.
  intros Hnot. split.
  - unfold score_mention.
    destruct (pre ++ correct_qid :: post) eqn:E.
    + destruct pre; discriminate.
    + rewrite <- E, scan_qids_first_match by assumption.
      rewrite bucket_hit_eq. reflexivity.
  - unfold score_mention. destruct pre as [|q pre]; [reflexivity|].
    now apply scan_qids_no_match.
Qed.

Lemma score_mention_first_occurrence_witness :
  ~ In "Q1" ["Q9"; "Q9"; "Q7"]
  /\ score_mention topk_init "Q1" (Some ["Q9"; "Q9"; "Q7"; "Q1"; "Q1"; "Q2"]) =
       Topk 0 0 1 1 1
  /\ score_mention topk_init "Q1" (Some ["Q9"; "Q9"; "Q7"]) = topk_init.
Proof.
  assert (H : ~ In "Q1" ["Q9"; "Q9"; "Q7"]).
  { simpl. intros [H|[H|[H|[]]]]; discriminate H. }
  split; [exact H|].
  exact (score_mention_first_occurrence topk_init "Q1" ["Q9"; "Q9"; "Q7"]
           ["Q1"; "Q2"] H).
Defined.

(** ** AccuracyScorer: the loop *)

Lemma bucket_hit_nested (t : tally) (i : Z) : nested t -> nested (bucket_hit t i).
Proof.
  unfold nested. rewrite bucket_hit_eq. simpl. intros (H1 & H2 & H3 & H4).
  destruct (Z.leb_spec i 0), (Z.leb_spec i 2), (Z.leb_spec i 4), (Z.leb_spec i 9);
    lia.
Qed.

Lemma scan_qids_nested (t : tally) (c : string) (qids : list string) :
  forall i, nested t -> nested (scan_qids t c i qids).
Proof.
  induction qids as [|q qids IH]; intros i Ht; simpl; [assumption|].
  destruct (String.eqb q c); [now apply bucket_hit_nested | now apply IH].
Qed.

Lemma score_mention_nested (t : tally) (c : string) (qids : option (list string)) :
  nested t -> nested (score_mention t c qids).
Proof.
  intros Ht. destruct qids as [[|q qids]|]; simpl; try assumption.
  destruct (String.eqb q c); [now apply bucket_hit_nested|].
  now apply scan_qids_nested.
Qed.

Lemma fold_left_invariant {A B : Type} (P : B -> Prop) (f : B -> A -> B) (l : list A) :
  (forall b a, P b -> P (f b a)) -> forall b, P b -> P (fold_left f l b).
Proof.
  intros Hf. induction l as [|a l IH]; intros b Hb; simpl; auto.
Qed.

(** C8. The counters of the scoring loop are nested:
    top-1 <= top-3 <= top-5 <= top-10 <= top-inf. *)
Theorem topk_counts_nested (data_to_qid : dict string) (alg_qids : dict (list string)) :
  top1 (topk_counts data_to_qid alg_qids) <= top3 (topk_counts data_to_qid alg_qids)
  /\ top3 (topk_counts data_to_qid alg_qids) <= top5 (topk_counts data_to_qid alg_qids)
  /\ top5 (topk_counts data_to_qid alg_qids) <= top10 (topk_counts data_to_qid alg_qids)
  /\ top10 (topk_counts data_to_qid alg_qids) <= topinf (topk_counts data_to_qid alg_qids).
Proof.
  change (nested (topk_counts data_to_qid alg_qids)).
  unfold topk_counts. apply fold_left_invariant.
  - intros t item Ht. now apply score_mention_nested.
  - unfold nested, topk_init. simpl. lia.
Qed.

(** A mention without a usable prediction leaves every counter as it is,
    wherever it stands in the correct-label map. *)
Lemma topk_counts_skip (alg_qids : dict (list string)) (d1 d2 : dict string)
      (mention correct_qid : string) :
  dict_get alg_qids mention = None \/ dict_get alg_qids mention = Some [] ->
  topk_counts (d1 ++ (mention, correct_qid) :: d2) alg_qids =
    topk_counts (d1 ++ d2) alg_qids.
Proof.
  intros H. unfold topk_counts. rewrite !fold_left_app. simpl.
  destruct H as [-> | ->]; reflexivity.
Qed.

(** ** AccuracyScorer: the report *)

Section ScorerFacts.

Context {World : Type}.
Implicit Type st : @state World.

Lemma get_topk_accuracy_run (data_to_qid : dict string)
      (alg_qids : dict (list string)) st :
  get_topk_accuracy data_to_qid alg_qids st =
    if Py.len data_to_qid =? 0 then (Raise ZeroDivisionError, st)
    else (Ok tt,
          State (world st) (sent st) (logged st)
                (printed st ++
                   [OutTopk
                      (Ratio (top1 (topk_counts data_to_qid alg_qids)) (Py.len data_to_qid))
                      (Ratio (top3 (topk_counts data_to_qid alg_qids)) (Py.len data_to_qid))
                      (Ratio (top5 (topk_counts data_to_qid alg_qids)) (Py.len data_to_qid))
                      (Ratio (top10 (topk_counts data_to_qid alg_qids)) (Py.len data_to_qid))
                      (Ratio (topinf (topk_counts data_to_qid alg_qids)) (Py.len data_to_qid))
                      (topinf (topk_counts data_to_qid alg_qids))])).
Proof.
  unfold get_topk_accuracy, bind, py_truediv.
  destruct (Py.len data_to_qid =? 0); reflexivity.
Qed.

(** C3. On an empty correct-label map the first quotient of the report
    line divides by zero: the exception escapes and nothing is printed. *)
Theorem get_topk_accuracy_empty (alg_qids : dict (list string)) st :
  get_topk_accuracy [] alg_qids st = (Raise ZeroDivisionError, st).
Proof. rewrite get_topk_accuracy_run. reflexivity. Qed.

(** C5. Every quotient of the report divides by the number of mentions of
    the correct-label map, and a mention whose prediction is missing or
    empty adds one to that number and nothing to any counter. *)
Theorem get_topk_accuracy_denominator (data_to_qid : dict string)
        (alg_qids : dict (list string)) st :
  get_topk_accuracy data_to_qid alg_qids st =
    (if Py.len data_to_qid =? 0 then (Raise ZeroDivisionError, st)
     else (Ok tt,
           State (world st) (sent st) (logged st)
                 (printed st ++
                    [OutTopk
                       (Ratio (top1 (topk_counts data_to_qid alg_qids)) (Py.len data_to_qid))
                       (Ratio (top3 (topk_counts data_to_qid alg_qids)) (Py.len data_to_qid))
                       (Ratio (top5 (topk_counts data_to_qid alg_qids)) (Py.len data_to_qid))
                       (Ratio (top10 (topk_counts data_to_qid alg_qids)) (Py.len data_to_qid))
                       (Ratio (topinf (topk_counts data_to_qid alg_qids)) (Py.len data_to_qid))
                       (topinf (topk_counts data_to_qid alg_qids))])))
  /\ forall (d1 d2 : dict string) (mention correct_qid : string),
      dict_get alg_qids mention = None \/ dict_get alg_qids mention = Some [] ->
      topk_counts (d1 ++ (mention, correct_qid) :: d2) alg_qids =
        topk_counts (d1 ++ d2) alg_qids
      /\ Py.len (d1 ++ (mention, correct_qid) :: d2) = Py.len (d1 ++ d2) + 1.
Proof.
  split; [apply get_topk_accuracy_run|].
  intros d1 d2 mention correct_qid H. split.
  - now apply topk_counts_skip.
  - unfold Py.len. rewrite !length_app. simpl. lia.
Qed.

End ScorerFacts.

Lemma get_topk_accuracy_denominator_witness :
  dict_get [("A", ["Q1"])] "B" = None
  /\ printed (snd (get_topk_accuracy [("A", "Q1"); ("B", "Q2")] [("A", ["Q1"])] start)) =
       [OutTopk (Ratio 1 2) (Ratio 1 2) (Ratio 1 2) (Ratio 1 2) (Ratio 1 2) 1]
  /\ topk_counts [("A", "Q1"); ("B", "Q2")] [("A", ["Q1"])] =
       topk_counts [("A", "Q1")] [("A", ["Q1"])].
Proof.
  split; [reflexivity|]. split.
  - rewrite (proj1 (get_topk_accuracy_denominator
                      [("A", "Q1"); ("B", "Q2")] [("A", ["Q1"])] start)).
    reflexivity.
  - exact (proj1 (proj2 (get_topk_accuracy_denominator
                           [("A", "Q1"); ("B", "Q2")] [("A", ["Q1"])] start)
                        [("A", "Q1")] [] "B" "Q2" (or_introl eq_refl))).
Defined.

(** ** Dictionaries and sorting *)

Lemma dict_get_set_same {V : Type} (d : dict V) (k : string) (v : V) :
  dict_get (dict_set d k v) k = Some v.
Proof.
  induction d as [|[k' v'] d IH]; simpl.
  - now rewrite String.eqb_refl.
  - destruct (String.eqb k' k) eqn:E; simpl; rewrite E; [reflexivity | exact IH].
Qed.

Lemma dict_get_set_other {V : Type} (d : dict V) (k k0 : string) (v : V) :
  k0 <> k -> dict_get (dict_set d k v) k0 = dict_get d k0.
Proof.
  intros Hne. induction d as [|[k' v'] d IH]; simpl.
  - destruct (String.eqb_spec k k0); [congruence | reflexivity].
  - destruct (String.eqb_spec k' k) as [->|Hk]; simpl.
    + destruct (String.eqb_spec k k0); [congruence | reflexivity].
    + destruct (String.eqb_spec k' k0); [reflexivity | exact IH].
Qed.

Lemma dict_set_present {V : Type} (d : dict V) (k : string) (v : V) :
  In k (dict_keys d) -> dict_keys (dict_set d k v) = dict_keys d.
Proof.
  induction d as [|[k' v'] d IH]; simpl; [tauto|].
  intros H. destruct (String.eqb_spec k' k) as [->|Hk]; simpl; [reflexivity|].
  f_equal. apply IH. destruct H; [congruence | assumption].
Qed.

Lemma dict_set_absent {V : Type} (d : dict V) (k : string) (v : V) :
  ~ In k (dict_keys d) -> dict_set d k v = d ++ [(k, v)].
Proof.
  induction d as [|[k' v'] d IH]; simpl; [reflexivity|].
  intros H. destruct (String.eqb_spec k' k) as [->|Hk].
  - exfalso. apply H. now left.
  - f_equal. apply IH. tauto.
Qed.

Lemma dict_keys_set_in {V : Type} (d : dict V) (k f : string) (v : V) :
  In f (dict_keys (dict_set d k v)) <-> f = k \/ In f (dict_keys d).
Proof.
  destruct (in_dec string_dec k (dict_keys d)) as [Hin|Hout].
  - rewrite dict_set_present by assumption. split; [tauto|].
    intros [->|H]; assumption.
  - rewrite dict_set_absent by assumption. unfold dict_keys.
    rewrite map_app, in_app_iff. simpl. split; intros H.
    + destruct H as [H|[H|[]]]; [now right | now left].
    + destruct H as [H|H]; [right; now left | now left].
Qed.

Lemma dict_set_wf {V : Type} (d : dict V) (k : string) (v : V) :
  dict_wf d -> dict_wf (dict_set d k v).
Proof.
  unfold dict_wf. intros Hwf.
  destruct (in_dec string_dec k (dict_keys d)) as [Hin|Hout].
  - now rewrite dict_set_present.
  - rewrite dict_set_absent by assumption. unfold dict_keys in *.
    rewrite map_app. simpl.
    apply (Permutation_NoDup (l := k :: map fst d)).
    + apply Permutation_cons_append.
    + now constructor.
Qed.

Lemma dict_of_items_wf {V : Type} (items : list (string * V)) :
  NoDup (map fst items) -> dict_of_items items = items.
Proof.
  unfold dict_of_items.
  enough (H : forall d, NoDup (map fst (d ++ items)) ->
                        fold_left (fun d kv => dict_set d (fst kv) (snd kv)) items d
                        = d ++ items)
    by (intros Hnd; exact (H [] Hnd)).
  induction items as [|[k v] items IH]; intros d Hnd; simpl.
  - now rewrite app_nil_r.
  - rewrite dict_set_absent.
    + rewrite IH; rewrite <- app_assoc; [reflexivity | exact Hnd].
    + rewrite map_app in Hnd. simpl in Hnd.
      apply NoDup_remove_2 in Hnd. intros Hin. apply Hnd.
      apply in_or_app. now left.
Qed.

Lemma record_valid_wf (replies : list (string * list string)) :
  forall d, dict_wf d -> dict_wf (record_valid replies d).
Proof.
  unfold record_valid.
  induction replies as [|[f r] replies IH]; intros d Hwf; simpl; [assumption|].
  apply IH. destruct r; [assumption | now apply dict_set_wf].
Qed.

(** The recorded fragments are the tokens with at least one non-empty reply. *)
Lemma record_valid_keys (replies : list (string * list string)) (frag : string) :
  forall d,
    In frag (dict_keys (record_valid replies d)) <->
    In frag (dict_keys d) \/ exists r, In (frag, r) replies /\ r <> [].
Proof.
  unfold record_valid.
  induction replies as [|[f r] replies IH]; intros d; simpl.
  - split; [tauto|]. intros [H|(r & [] & _)]. exact H.
  - rewrite IH. destruct r as [|q r]; simpl.
    + split.
      * intros [H|(r' & H & Hne)]; [now left|]. right. exists r'. tauto.
      * intros [H|(r' & [H|H] & Hne)]; [now left | | right; now exists r'].
        inversion H; subst. congruence.
    + rewrite dict_keys_set_in. split.
      * intros [[->|H]|(r' & H & Hne)].
        -- right. exists (q :: r). split; [now left | discriminate].
        -- now left.
        -- right. exists r'. tauto.
      * intros [H|(r' & [H|H] & Hne)].
        -- left. now right.
        -- inversion H; subst. left. now left.
        -- right. now exists r'.
Qed.

Lemma record_valid_keys_nil (replies : list (string * list string)) (frag : string) :
  In frag (dict_keys (record_valid replies [])) <->
  exists r, In (frag, r) replies /\ r <> [].
Proof.
  rewrite record_valid_keys. simpl. tauto.
Qed.

Lemma insert_by_perm {A : Type} (key : A -> Z) (x : A) (l : list A) :
  Permutation (Py.insert_by key x l) (x :: l).
Proof.
  induction l as [|y l IH]; simpl; [reflexivity|].
  destruct (key y <? key x); [|reflexivity].
  rewrite IH. apply perm_swap.
Qed.

Lemma sorted_perm {A : Type} (key : A -> Z) (l : list A) :
  Permutation (Py.sorted key l) l.
Proof.
  induction l as [|x l IH]; simpl; [reflexivity|].
  rewrite insert_by_perm. now constructor.
Qed.

Lemma insert_by_sorted {A : Type} (key : A -> Z) (x : A) (l : list A) :
  StronglySorted (fun a b => key a <= key b) l ->
  StronglySorted (fun a b => key a <= key b) (Py.insert_by key x l).
Proof.
  induction l as [|y l IH]; intros Hs; simpl.
  - constructor; constructor.
  - inversion Hs as [|? ? Hl Hy]; subst.
    destruct (Z.ltb_spec (key y) (key x)) as [Hlt|Hge].
    + constructor; [now apply IH|].
      apply (Permutation_Forall (x := x :: l)).
      * symmetry. apply insert_by_perm.
      * constructor; [lia | assumption].
    + constructor; [assumption|].
      constructor; [assumption|].
      eapply Forall_impl; [|exact Hy]. simpl. intros a Ha. lia.
Qed.

Lemma sorted_sorted {A : Type} (key : A -> Z) (l : list A) :
  StronglySorted (fun a b => key a <= key b) (Py.sorted key l).
Proof.
  induction l as [|x l IH]; simpl; [constructor | now apply insert_by_sorted].
Qed.

(** The sort is stable: the elements of any one key keep their order. *)
Lemma insert_by_stable {A : Type} (key : A -> Z) (k : Z) (x : A) (l : list A) :
  filter (fun a => key a =? k) (Py.insert_by key x l) =
    filter (fun a => key a =? k) (x :: l).
Proof.
  induction l as [|y l IH]; [reflexivity|].
  cbn [Py.insert_by]. destruct (Z.ltb_spec (key y) (key x)) as [Hlt|Hge]; [|reflexivity].
  cbn [filter] in *. rewrite IH.
  destruct (Z.eqb_spec (key x) k), (Z.eqb_spec (key y) k); try reflexivity. lia.
Qed.

Lemma sorted_stable {A : Type} (key : A -> Z) (k : Z) (l : list A) :
  filter (fun a => key a =? k) (Py.sorted key l) = filter (fun a => key a =? k) l.
Proof.
  induction l as [|x l IH]; [reflexivity|].
  cbn [Py.sorted]. rewrite insert_by_stable. cbn [filter]. now rewrite IH.
Qed.

(** ** CandidateAggregator: autocomplete strategy *)

Section AutocompleteFacts.

Context {World : Type}.
Variable wd_get : World -> string -> wd_reply * World.
Implicit Type st : @state World.

Lemma collect_ids_total (data : string) (search : list (option string)) :
  forall qids st, exists r st',
    collect_ids data search qids st = (Ok r, st')
    /\ sent st' = sent st /\ printed st' = printed st.
Proof.
  induction search as [|[id|] search IH]; intros qids st; simpl.
  - exists qids, st. auto.
  - apply IH.
  - eexists _, _. split; [reflexivity|]. simpl. auto.
Qed.

(** Every exception of a sub-query is caught: the call returns a list and
    has sent exactly one request. *)
Lemma invoke_wikidata_api_total (data : string) st :
  exists r st',
    invoke_wikidata_api wd_get data st = (Ok r, st')
    /\ sent st' = sent st ++ [WdGet data] /\ printed st' = printed st.
Proof.
  unfold invoke_wikidata_api, bind, requests_get.
  destruct (wd_get (world st) data) as [[|success search] w].
  - eexists _, _. split; [reflexivity|]. simpl. auto.
  - destruct (negb (success =? 1)).
    + eexists _, _. split; [reflexivity|]. simpl. auto.
    + destruct (collect_ids_total data search []
                  (State w (sent st ++ [WdGet data]) (logged st) (printed st)))
        as (r & st' & E & Hs & Hp).
      exists r, st'. rewrite E, Hs, Hp. auto.
Qed.

Lemma map_each_invoke_total (queries : list string) :
  forall st, exists rs st',
    map_each (invoke_wikidata_api wd_get) queries st = (Ok rs, st')
    /\ sent st' = sent st ++ map WdGet queries /\ printed st' = printed st.
Proof.
  induction queries as [|q queries IH]; intros st; simpl.
  - exists [], st. rewrite app_nil_r. auto.
  - destruct (invoke_wikidata_api_total q st) as (r & st1 & E1 & Hs1 & Hp1).
    destruct (IH st1) as (rs & st2 & E2 & Hs2 & Hp2).
    exists (r :: rs), st2. unfold bind, ret. rewrite E1, E2.
    rewrite Hs2, Hs1, Hp2, Hp1, <- app_assoc. auto.
Qed.

(** The accumulating loop over combinations appends the replies in order. *)
Lemma query_combinations_run (combinations : list string) :
  forall qids st rs st',
    map_each (invoke_wikidata_api wd_get) combinations st = (Ok rs, st') ->
    query_combinations wd_get combinations qids st = (Ok (qids ++ List.concat rs), st').
Proof.
  unfold query_combinations.
  induction combinations as [|c combinations IH]; intros qids st rs st' H;
    simpl in *; unfold bind, ret in *.
  - inversion H; subst. simpl. now rewrite app_nil_r.
  - destruct (invoke_wikidata_api wd_get c st) as [[r|e] st1]; [|discriminate].
    destruct (map_each (invoke_wikidata_api wd_get) combinations st1)
      as [[rs'|e] st2] eqn:E2; [|discriminate].
    inversion H; subst. simpl.
    rewrite (IH (qids ++ r) st1 rs' st' E2), <- app_assoc. reflexivity.
Qed.

(** The fragment loop records the tokens whose reply is not empty. *)
Lemma valid_fragments_run (fragments : list string) :
  forall st frs st',
    map_each (invoke_wikidata_api wd_get) fragments st = (Ok frs, st') ->
    valid_fragments wd_get fragments st =
      (Ok (record_valid (combine fragments frs) []), st').
Proof.
  unfold valid_fragments, record_valid. generalize (@nil (string * list string)).
  induction fragments as [|f fragments IH]; intros d st frs st' H;
    simpl in *; unfold bind, ret in *.
  - inversion H; subst. reflexivity.
  - destruct (invoke_wikidata_api wd_get f st) as [[r|e] st1]; [|discriminate].
    destruct (map_each (invoke_wikidata_api wd_get) fragments st1)
      as [[rs'|e] st2] eqn:E2; [|discriminate].
    inversion H; subst. simpl.
    rewrite (IH _ st1 rs' st' E2). reflexivity.
Qed.

(** The run of [get_wikidata_qids] in terms of the replies to its four
    groups of requests. *)
Lemma get_wikidata_qids_run (data : string) st
      exact st1 frs st2 all st3 by_count st4 :
  invoke_wikidata_api wd_get data st = (Ok exact, st1) ->
  map_each (invoke_wikidata_api wd_get) (Py.split " "%char data) st1 = (Ok frs, st2) ->
  map_each (invoke_wikidata_api wd_get)
           (get_data_combinations (Py.split " "%char data)) st2 = (Ok all, st3) ->
  map_each (invoke_wikidata_api wd_get)
           (get_data_combinations
              (dict_keys (Py.sorted candidate_count
                            (record_valid (combine (Py.split " "%char data) frs) []))))
           st3 = (Ok by_count, st4) ->
  exists st',
    get_wikidata_qids wd_get data st =
      (Ok [(data, exact ++ List.concat all ++ List.concat by_count)], st')
    /\ sent st' = sent st4 /\ printed st' = printed st4.
Proof.
  intros E1 E2 E3 E4.
  unfold get_wikidata_qids, bind. rewrite E1.
  rewrite (valid_fragments_run _ _ _ _ E2).
  rewrite (query_combinations_run _ _ _ _ _ E3).
  rewrite dict_of_items_wf.
  2:{ apply (Permutation_NoDup (l := map fst (record_valid (combine (Py.split " "%char data) frs) []))).
      - apply Permutation_map. symmetry. apply sorted_perm.
      - apply record_valid_wf. constructor. }
  fold candidate_count.
  rewrite (query_combinations_run _ _ _ _ _ E4).
  simpl. rewrite <- app_assoc.
  destruct (exact ++ List.concat all ++ List.concat by_count).
  - eexists. split; [reflexivity|]. simpl. auto.
  - eexists. split; [reflexivity|]. auto.
Qed.

(** C7. The ranked list of a mention is the replies to the exact-mention
    query, then the replies to the combinations over all tokens in
    combination order, then the replies to the combinations over the
    recorded fragments stably sorted by ascending candidate count; every
    occurrence of an identifier in a reply is kept. *)
Theorem get_wikidata_qids_ranked (data : string) st :
  exists exact st1 frs st2 all st3 by_count st4 st',
    let fragments := Py.split " "%char data in
    let valid := Py.sorted candidate_count (record_valid (combine fragments frs) []) in
    invoke_wikidata_api wd_get data st = (Ok exact, st1)
    /\ map_each (invoke_wikidata_api wd_get) fragments st1 = (Ok frs, st2)
    /\ map_each (invoke_wikidata_api wd_get) (get_data_combinations fragments) st2
       = (Ok all, st3)
    /\ Permutation valid (record_valid (combine fragments frs) [])
    /\ StronglySorted (fun a b => candidate_count a <= candidate_count b) valid
    /\ NoDup (dict_keys valid)
    /\ (forall frag : string,
          In frag (dict_keys valid) <->
          exists r, In (frag, r) (combine fragments frs) /\ r <> [])
    /\ map_each (invoke_wikidata_api wd_get)
                (get_data_combinations (dict_keys valid)) st3
       = (Ok by_count, st4)
    /\ get_wikidata_qids wd_get data st =
         (Ok [(data, exact ++ List.concat all ++ List.concat by_count)], st')
    /\ forall qid : string,
         count_occ string_dec (exact ++ List.concat all ++ List.concat by_count) qid =
           (count_occ string_dec exact qid
            + count_occ string_dec (List.concat all) qid
            + count_occ string_dec (List.concat by_count) qid)%nat.
Proof.
  destruct (invoke_wikidata_api_total data st) as (exact & st1 & E1 & _).
  destruct (map_each_invoke_total (Py.split " "%char data) st1)
    as (frs & st2 & E2 & _).
  destruct (map_each_invoke_total (get_data_combinations (Py.split " "%char data)) st2)
    as (all & st3 & E3 & _).
  destruct (map_each_invoke_total
              (get_data_combinations
                 (dict_keys (Py.sorted candidate_count
                               (record_valid (combine (Py.split " "%char data) frs) []))))
              st3)
    as (by_count & st4 & E4 & _).
  destruct (get_wikidata_qids_run data st _ _ _ _ _ _ _ _ E1 E2 E3 E4)
    as (st' & E & _).
  exists exact, st1, frs, st2, all, st3, by_count, st4, st'. cbv zeta.
  assert (Hperm : Permutation
                    (dict_keys (Py.sorted candidate_count
                                  (record_valid (combine (Py.split " "%char data) frs) [])))
                    (dict_keys (record_valid (combine (Py.split " "%char data) frs) []))).
  { apply Permutation_map, sorted_perm. }
  split; [exact E1|]. split; [exact E2|]. split; [exact E3|].
  split; [apply sorted_perm|]. split; [apply sorted_sorted|].
  split; [|split; [|split; [exact E4|split; [exact E|]]]].
  - apply (Permutation_NoDup (Permutation_sym Hperm)).
    apply record_valid_wf. constructor.
  - intros frag. rewrite <- (record_valid_keys_nil (combine (Py.split " "%char data) frs)).
    split; apply Permutation_in; [exact Hperm | exact (Permutation_sym Hperm)].
  - intros qid. rewrite !count_occ_app. lia.
Qed.

Lemma record_valid_no_reply (replies : list (string * list string)) :
  forall d, Forall (fun r => r = []) (map snd replies) -> record_valid replies d = d.
Proof.
  unfold record_valid.
  induction replies as [|[f r] replies IH]; intros d H; simpl in *; [reflexivity|].
  inversion H as [|? ? Hr Hrest]; subst. now apply IH.
Qed.

Lemma Forall_snd_combine {A B : Type} (P : B -> Prop) (l : list A) :
  forall l', Forall P l' -> Forall P (map snd (combine l l')).
Proof.
  induction l as [|a l IH]; intros l' H; simpl; [constructor|].
  destruct H as [|b l' Hb Hl']; simpl; constructor; auto.
Qed.

(** C10. The empty token sequence gives the one-element sequence holding
    the empty string; so when no token of a mention got a candidate, the
    last step of [get_wikidata_qids] sends exactly one request, whose query
    is the empty string. *)
Theorem get_wikidata_qids_no_valid_fragment (data : string) st exact st1 frs st2 :
  invoke_wikidata_api wd_get data st = (Ok exact, st1) ->
  map_each (invoke_wikidata_api wd_get) (Py.split " "%char data) st1 = (Ok frs, st2) ->
  Forall (fun r => r = []) frs ->
  get_data_combinations [] = [""]
  /\ exists wd_qids st',
       get_wikidata_qids wd_get data st = (Ok wd_qids, st')
       /\ sent st' =
            sent st ++ [WdGet data]
                    ++ map WdGet (Py.split " "%char data)
                    ++ map WdGet (get_data_combinations (Py.split " "%char data))
                    ++ [WdGet ""].
Proof.
  intros E1 E2 Hempty. split; [reflexivity|].
  destruct (invoke_wikidata_api_total data st) as (x & y & E1' & Hs1 & _).
  rewrite E1 in E1'. inversion E1'; subst x y. clear E1'.
  destruct (map_each_invoke_total (Py.split " "%char data) st1)
    as (x & y & E2' & Hs2 & _).
  rewrite E2 in E2'. inversion E2'; subst x y. clear E2'.
  destruct (map_each_invoke_total (get_data_combinations (Py.split " "%char data)) st2)
    as (all & st3 & E3 & Hs3 & _).
  assert (Hvalid : record_valid (combine (Py.split " "%char data) frs) [] = []).
  { apply record_valid_no_reply. now apply Forall_snd_combine. }
  destruct (map_each_invoke_total [""] st3) as (by_count & st4 & E4 & Hs4 & _).
  destruct (get_wikidata_qids_run data st exact st1 frs st2 all st3 by_count st4
              E1 E2 E3) as (st' & E & Hs & _).
  { rewrite Hvalid. exact E4. }
  eexists _, st'. split; [exact E|].
  rewrite Hs, Hs4, Hs3, Hs2, Hs1. simpl. rewrite <- !app_assoc. reflexivity.
Qed.

(** *** Every mention gets an entry *)

Lemma get_wikidata_qids_total (data : string) st :
  exists qids st',
    get_wikidata_qids wd_get data st = (Ok [(data, qids)], st')
    /\ printed st' = printed st.
Proof.
  destruct (invoke_wikidata_api_total data st) as (exact & st1 & E1 & _ & P1).
  destruct (map_each_invoke_total (Py.split " "%char data) st1)
    as (frs & st2 & E2 & _ & P2).
  destruct (map_each_invoke_total (get_data_combinations (Py.split " "%char data)) st2)
    as (all & st3 & E3 & _ & P3).
  destruct (map_each_invoke_total
              (get_data_combinations
                 (dict_keys (Py.sorted candidate_count
                               (record_valid (combine (Py.split " "%char data) frs) []))))
              st3)
    as (by_count & st4 & E4 & _ & P4).
  destruct (get_wikidata_qids_run data st _ _ _ _ _ _ _ _ E1 E2 E3 E4)
    as (st' & E & _ & P).
  eexists _, st'. split; [exact E|]. congruence.
Qed.

Lemma map_each_get_wikidata_qids_total (mentions : list string) :
  forall st, exists wd_results st',
    map_each (get_wikidata_qids wd_get) mentions st = (Ok wd_results, st')
    /\ map fst (List.concat wd_results) = mentions
    /\ printed st' = printed st.
Proof.
  induction mentions as [|m mentions IH]; intros st; simpl.
  - exists [], st. auto.
  - destruct (get_wikidata_qids_total m st) as (qids & st1 & E1 & P1).
    destruct (IH st1) as (rs & st2 & E2 & Hk & P2).
    exists ([(m, qids)] :: rs), st2. unfold bind, ret. rewrite E1, E2.
    simpl. rewrite Hk. split; [reflexivity|]. split; [reflexivity|]. congruence.
Qed.

End AutocompleteFacts.

Lemma get_wikidata_qids_ranked_witness :
  exists qids st',
    get_wikidata_qids (table_wd sample_table) "apache tomcat" start
    = (Ok [("apache tomcat", qids)], st').
Proof.
  destruct (get_wikidata_qids_ranked (table_wd sample_table) "apache tomcat" start)
    as (exact & st1 & frs & st2 & all & st3 & by_count & st4 & st' & H).
  cbv zeta in H. destruct H as (_ & _ & _ & _ & _ & _ & _ & _ & E & _).
  exists (exact ++ List.concat all ++ List.concat by_count), st'. exact E.
Defined.

(** The same mention in full: "tomcat" has one candidate and "apache" three,
    so the last group of queries starts from the phrase "tomcat apache". *)
Example get_wikidata_qids_sample :
  get_wikidata_qids (table_wd sample_table) "apache tomcat" start =
    (Ok [("apache tomcat",
          ["Q4"; "Q5"]
          ++ (["Q4"; "Q5"] ++ ["Q1"; "Q2"; "Q3"] ++ ["Q4"])
          ++ ([] ++ ["Q4"] ++ ["Q1"; "Q2"; "Q3"]))],
     State tt
           [WdGet "apache tomcat";
            WdGet "apache"; WdGet "tomcat";
            WdGet "apache tomcat"; WdGet "apache"; WdGet "tomcat";
            WdGet "tomcat apache"; WdGet "tomcat"; WdGet "apache"]
           [] []).
Proof. reflexivity. Qed.
Lemma get_wikidata_qids_no_valid_fragment_witness :
  Forall (fun r : list string => r = []) [[]; []]
  /\ exists wd_qids st',
       get_wikidata_qids offline_wd "foo bar" start = (Ok wd_qids, st')
       /\ sent st' = [WdGet "foo bar"; WdGet "foo"; WdGet "bar";
                      WdGet "foo bar"; WdGet "foo"; WdGet "bar"; WdGet ""].
Proof.
  split; [repeat constructor|].
  exact (proj2 (get_wikidata_qids_no_valid_fragment offline_wd "foo bar" start
                  [] _ [[]; []] _ eq_refl eq_refl
                  (Forall_cons _ eq_refl (Forall_cons _ eq_refl (Forall_nil _))))).
Defined.

Lemma dict_get_in_keys {V : Type} (d : dict V) (k : string) :
  In k (dict_keys d) -> exists v, dict_get d k = Some v.
Proof.
  induction d as [|[k' v'] d IH]; simpl; [tauto|].
  intros H. destruct (String.eqb_spec k' k) as [->|Hk]; [now exists v'|].
  apply IH. destruct H; [congruence | assumption].
Qed.

Lemma dict_of_items_keys {V : Type} (items : list (string * V)) (k : string) :
  In k (map fst items) -> In k (dict_keys (dict_of_items items)).
Proof.
  unfold dict_of_items.
  enough (H : forall d, In k (dict_keys d) \/ In k (map fst items) ->
                        In k (dict_keys (fold_left (fun d kv => dict_set d (fst kv) (snd kv))
                                                   items d)))
    by (intros Hin; apply H; now right).
  induction items as [|[k' v] items IH]; intros d H; simpl in *.
  - tauto.
  - apply IH. rewrite dict_keys_set_in.
    destruct H as [H|[H|H]]; [left; now right | left; left; congruence | now right].
Qed.

(** ** Missing entries *)

Section CoverageFacts.

Context {World : Type}.
Variable wd_get : World -> string -> wd_reply * World.
Implicit Type st : @state World.

Lemma run_wikidata_autocomplete_total (data_to_qid : dict string) st :
  exists wd_qids st',
    run_wikidata_autocomplete wd_get data_to_qid st = (Ok wd_qids, st')
    /\ Forall (fun mention => exists qids, dict_get wd_qids mention = Some qids)
              (dict_keys data_to_qid)
    /\ printed st' = printed st.
Proof.
  destruct (map_each_get_wikidata_qids_total wd_get (dict_keys data_to_qid) st)
    as (rs & st' & E & Hk & P).
  exists (dict_of_items (List.concat rs)), st'.
  unfold run_wikidata_autocomplete, bind, ret. rewrite E.
  split; [reflexivity|]. split; [|exact P].
  apply Forall_forall. intros m Hm.
  apply dict_get_in_keys, dict_of_items_keys. now rewrite Hk.
Qed.

End CoverageFacts.

(** C9. The autocomplete result has an entry for every mention of the
    input map, so indexing it with an input mention does not raise; the
    entity-linking result can lack all entries (the call failed) or some
    (the service answered for part of the batch). *)
Theorem autocomplete_covers_every_mention :
  (forall (World : Type) (wd_get : World -> string -> wd_reply * World)
          (data_to_qid : dict string) (st : @state World),
      exists wd_qids st',
        run_wikidata_autocomplete wd_get data_to_qid st = (Ok wd_qids, st')
        /\ Forall (fun mention =>
                     exists qids, dict_get wd_qids mention = Some qids
                                  /\ dict_index wd_qids mention st' = (Ok qids, st'))
                  (dict_keys data_to_qid))
  /\ (exists el_qids st',
        run_entity_linking offline_el [("nginx", "Q1"); ("redis", "Q2")] "software" start
        = (Ok el_qids, st')
        /\ dict_get el_qids "nginx" = None /\ dict_get el_qids "redis" = None)
  /\ (exists el_qids st',
        run_entity_linking first_only_el [("nginx", "Q1"); ("redis", "Q2")] "software" start
        = (Ok el_qids, st')
        /\ dict_get el_qids "nginx" = Some ["Q1"] /\ dict_get el_qids "redis" = None).
Proof.
  split; [|split].
  - intros World wd_get data_to_qid st.
    destruct (run_wikidata_autocomplete_total wd_get data_to_qid st)
      as (wd & st' & E & Hall & _).
    exists wd, st'. split; [exact E|].
    eapply Forall_impl; [|exact Hall]. simpl.
    intros m (qids & Hq). exists qids. split; [exact Hq|].
    unfold dict_index. now rewrite Hq.
  - exists [],
      (State tt [ElPost [ElRecord 0 "nginx" "" "software";
                         ElRecord 1 "redis" "" "software"]] [] [OutElError]).
    repeat split.
  - exists [("nginx", ["Q1"])],
      (State tt [ElPost [ElRecord 0 "nginx" "" "software";
                         ElRecord 1 "redis" "" "software"]] [] []).
    repeat split.
Qed.

(** ** ZeroShotRunner *)

Section RunnerFacts.

Context {World Score : Type}.
Variable wd_get : World -> string -> wd_reply * World.
Variable el_post : World -> list el_record -> el_reply Score * World.
Implicit Type st : @state World.

Lemma bind_ok {A B : Type} (c : M A) (k : A -> M B) st (a : A) st' :
  c st = (Ok a, st') -> bind c k st = k a st'.
Proof. intros E. unfold bind. now rewrite E. Qed.

(** A failed entity-linking call is printed and gives the empty map. *)
Lemma run_entity_linking_failure (data_to_qid : dict string) (context : string) st :
  (forall w payload, fst (el_post w payload) = ElFailure) ->
  exists st',
    run_entity_linking el_post data_to_qid context st = (Ok [], st')
    /\ printed st' = printed st ++ [OutElError].
Proof.
  intros Hfail. unfold run_entity_linking.
  match goal with |- context [fold_left ?f (Py.enumerate data_to_qid) ?a] =>
    destruct (fold_left f (Py.enumerate data_to_qid) a) as [payload id_to_data] end.
  unfold bind, requests_post.
  specialize (Hfail (world st) payload).
  destruct (el_post (world st) payload) as [reply w]. simpl in Hfail. subst reply.
  eexists. split; [reflexivity|]. reflexivity.
Qed.

Lemma topk_counts_no_prediction (data_to_qid : dict string) :
  topk_counts data_to_qid [] = topk_init.
Proof.
  unfold topk_counts. apply fold_left_invariant; [|reflexivity].
  intros t item ->. reflexivity.
Qed.

(** C4. When the entity-linking service is unreachable, each
    entity-linking run returns the empty map and the three reports are
    printed; the closing loop then indexes that empty map with the first
    mention, and the [KeyError] escapes [run_zero_shot]. *)
Theorem run_zero_shot_el_failure (mention qid : string) (rest : dict string) st :
  (forall w payload, fst (el_post w payload) = ElFailure) ->
  exists wd_report st',
    run_zero_shot wd_get el_post ((mention, qid) :: rest) st
    = (Raise (KeyError mention), st')
    /\ printed st' =
         printed st ++
           [OutRule; OutZeroShotBanner (Py.len ((mention, qid) :: rest)); OutRule;
            OutElError; OutTook ElNoCtx;
            OutTopk (Ratio 0 (Py.len ((mention, qid) :: rest)))
                    (Ratio 0 (Py.len ((mention, qid) :: rest)))
                    (Ratio 0 (Py.len ((mention, qid) :: rest)))
                    (Ratio 0 (Py.len ((mention, qid) :: rest)))
                    (Ratio 0 (Py.len ((mention, qid) :: rest))) 0;
            OutTook WdApi; wd_report;
            OutElError; OutTook ElSoftware;
            OutTopk (Ratio 0 (Py.len ((mention, qid) :: rest)))
                    (Ratio 0 (Py.len ((mention, qid) :: rest)))
                    (Ratio 0 (Py.len ((mention, qid) :: rest)))
                    (Ratio 0 (Py.len ((mention, qid) :: rest)))
                    (Ratio 0 (Py.len ((mention, qid) :: rest))) 0].
Proof.
  intros Hfail.
  set (d := (mention, qid) :: rest).
  assert (Hlen : (Py.len d =? 0) = false).
  { unfold Py.len, d. simpl List.length. apply Z.eqb_neq. lia. }
  unfold run_zero_shot. fold d.
  do 3 (unfold bind at 1; cbn [print]).
  match goal with |- context [bind (run_entity_linking el_post d "") _ ?s] =>
    destruct (run_entity_linking_failure d "" s Hfail) as (s1 & E1 & P1) end.
  rewrite (bind_ok _ _ _ _ _ E1).
  unfold bind at 1; cbn [print].
  unfold bind at 1. rewrite get_topk_accuracy_run, Hlen, topk_counts_no_prediction.
  match goal with |- context [bind (run_wikidata_autocomplete wd_get d) _ ?s] =>
    destruct (run_wikidata_autocomplete_total wd_get d s) as (wd & s2 & E2 & _ & P2) end.
  rewrite (bind_ok _ _ _ _ _ E2).
  unfold bind at 1; cbn [print].
  unfold bind at 1. rewrite get_topk_accuracy_run, Hlen.
  match goal with |- context [bind (run_entity_linking el_post d "software") _ ?s] =>
    destruct (run_entity_linking_failure d "software" s Hfail) as (s3 & E3 & P3) end.
  rewrite (bind_ok _ _ _ _ _ E3).
  unfold bind at 1; cbn [print].
  unfold bind at 1. rewrite get_topk_accuracy_run, Hlen, topk_counts_no_prediction.
  unfold d at 1. cbn [for_each]. unfold bind at 1. cbn [dict_index dict_get raise].
  eexists _, _. split; [reflexivity|].
  cbn [printed]. rewrite P3. cbn [printed]. rewrite P2. cbn [printed].
  rewrite P1. cbn [printed]. rewrite <- !app_assoc. reflexivity.
Qed.

End RunnerFacts.

Lemma run_zero_shot_el_failure_witness :
  (forall w payload, fst (offline_el w payload) = ElFailure)
  /\ fst (run_zero_shot offline_wd offline_el [("nginx", "Q1")] start)
     = Raise (KeyError "nginx").
Proof.
  split; [reflexivity|].
  destruct (run_zero_shot_el_failure offline_wd offline_el "nginx" "Q1" [] start
              (fun _ _ => eq_refl)) as (r & st' & E & _).
  rewrite E. reflexivity.
Defined.

(** The same run in full: the three reports are on standard output, the
    failure of the service is printed and not logged, and the run ends with
    the exception. *)
Example run_zero_shot_offline :
  run_zero_shot offline_wd offline_el [("nginx", "Q1")] start =
    (Raise (KeyError "nginx"),
     State tt
           [ElPost [ElRecord 0 "nginx" "" ""];
            WdGet "nginx"; WdGet "nginx"; WdGet "nginx"; WdGet "";
            ElPost [ElRecord 0 "nginx" "" "software"]]
           [LogQueryError "nginx"; LogQueryError "nginx"; LogQueryError "nginx";
            LogQueryError ""; LogNoQids "nginx"]
           [OutRule; OutZeroShotBanner 1; OutRule;
            OutElError; OutTook ElNoCtx;
            OutTopk (Ratio 0 1) (Ratio 0 1) (Ratio 0 1) (Ratio 0 1) (Ratio 0 1) 0;
            OutTook WdApi;
            OutTopk (Ratio 0 1) (Ratio 0 1) (Ratio 0 1) (Ratio 0 1) (Ratio 0 1) 0;
            OutElError; OutTook ElSoftware;
            OutTopk (Ratio 0 1) (Ratio 0 1) (Ratio 0 1) (Ratio 0 1) (Ratio 0 1) 0]).
Proof. reflexivity. Qed.

(** ** FewShotRunner *)

Section FewShotFacts.

Context {World : Type}.
Implicit Type st : @state World.

(** The loop of [run_few_shot] adds one for every pair whose predicted
    identifier differs from the correct one. *)
Lemma few_shot_loop (data_to_eid entity_to_eid : dict string)
      (pairs : list (string * list string)) :
  Forall (fun p => snd p <> []) pairs ->
  forall (num_correct : Z) st, exists st',
    for_each (fun num_correct item =>
                let '(mention, entity) := item in
                let correct_eid := dict_get data_to_eid mention in
                bind (py_first entity) (fun name =>
                let predicted_eid := dict_get entity_to_eid name in
                bind (if falsy correct_eid
                      then logging (LogMentionNotFound mention)
                      else ret tt) (fun _ =>
                ret (if py_ne correct_eid predicted_eid
                     then num_correct + 1
                     else num_correct))))
             pairs num_correct st
    = (Ok (num_correct
           + Py.len (filter (fun p => py_ne (dict_get data_to_eid (fst p))
                                            (dict_get entity_to_eid (hd "" (snd p))))
                            pairs)),
       st')
    /\ printed st' = printed st.
Proof.
  unfold Py.len. intros Hall.
  match goal with |- context [for_each ?f pairs] => set (body := f) end.
  induction Hall as [|[mention entity] pairs Hne _ IH]; intros num_correct st.
  - exists st. simpl. rewrite Z.add_0_r. auto.
  - simpl in Hne. destruct entity as [|name entity]; [congruence|].
    cbn [for_each filter fst snd hd].
    set (hit := py_ne (dict_get data_to_eid mention) (dict_get entity_to_eid name)).
    unfold bind at 1. unfold body at 1.
    unfold bind, py_first, ret, logging. cbn beta iota. fold hit.
    destruct (falsy (dict_get data_to_eid mention)); cbn beta iota;
      match goal with |- context [for_each body pairs ?n ?s] =>
        destruct (IH n s) as (st' & E & P) end;
      exists st'; rewrite E; (split; [|exact P]);
      destruct hit; simpl List.length; do 2 f_equal; lia.
Qed.

(** X15. On a non-empty test set for which the standardizer gives no
    empty entry, the run completes and the reported accuracy is the number
    of mentions whose predicted identifier differs from the correct one,
    over the number of mentions. *)
Lemma run_few_shot_reports (entities : list (string * string * string * string))
      (data_to_eid : dict string) (tech_sim_scores : list (list string)) st :
  data_to_eid <> [] ->
  Forall (fun entity => entity <> []) tech_sim_scores ->
  exists st',
    run_few_shot entities data_to_eid tech_sim_scores st = (Ok tt, st')
    /\ printed st' =
         printed st ++
           [OutRule; OutFewShotBanner (Py.len data_to_eid); OutRule;
            OutFewShot
              (Ratio
                 (Py.len
                    (filter
                       (fun p =>
                          py_ne (dict_get data_to_eid (fst p))
                                (dict_get
                                   (fold_left
                                      (fun entity_to_eid entity_tuple =>
                                         let '(entity_id, entity, _, _) := entity_tuple in
                                         dict_set entity_to_eid entity entity_id)
                                      entities [])
                                   (hd "" (snd p))))
                       (combine (dict_keys data_to_eid) tech_sim_scores)))
                 (Py.len data_to_eid))].
Proof.
  intros Hne Hall. unfold run_few_shot.
  match goal with |- context [fold_left ?f entities []] =>
    set (entity_to_eid := fold_left f entities []) end.
  assert (Hpairs : Forall (fun p : string * list string => snd p <> [])
                          (combine (dict_keys data_to_eid) tech_sim_scores)).
  { apply Forall_forall. intros [m e] Hin. apply in_combine_r in Hin.
    simpl. exact (proj1 (Forall_forall _ _) Hall e Hin). }
  destruct (few_shot_loop data_to_eid entity_to_eid _ Hpairs 0 st) as (st1 & E & P).
  rewrite (bind_ok _ _ _ _ _ E).
  assert (Hlen : Py.len (dict_keys data_to_eid) = Py.len data_to_eid).
  { unfold Py.len, dict_keys. now rewrite length_map. }
  rewrite Hlen.
  assert (Hnz : (Py.len data_to_eid =? 0) = false).
  { apply Z.eqb_neq. unfold Py.len. destruct data_to_eid; [congruence|]. simpl. lia. }
  unfold bind, print, py_truediv. rewrite Hnz. unfold ret.
  eexists. split; [reflexivity|].
  cbn [printed]. rewrite P, <- !app_assoc. reflexivity.
Qed.

End FewShotFacts.

(** C1. [run_few_shot] at two one-mention test sets, with identifiers as
    strings on both sides. A predicted name that is absent from the name
    table is counted: the reported accuracy is 1/1. A predicted name that
    translates to the correct identifier is not counted: the reported
    accuracy is 0/1. *)
Theorem run_few_shot_counts_mismatches :
  run_few_shot [("7", "Apache Tomcat", "1", "")] [("tomcat", "7")]
               [["Tomcat"]] start
  = (Ok tt, State tt [] []
                  [OutRule; OutFewShotBanner 1; OutRule; OutFewShot (Ratio 1 1)])
  /\ run_few_shot [("7", "Apache Tomcat", "1", "")] [("tomcat", "7")]
                  [["Apache Tomcat"]] start
     = (Ok tt, State tt [] []
                     [OutRule; OutFewShotBanner 1; OutRule; OutFewShot (Ratio 0 1)]).
Proof. split; reflexivity. Qed.

(** * Further properties *)

(** ** AccuracyScorer: counters as top-k membership *)

Lemma mem_In (x : string) (l : list string) : Py.mem x l = true <-> In x l.
Proof.
  unfold Py.mem. rewrite existsb_exists. split.
  - intros (y & Hy & E). apply String.eqb_eq in E. now subst.
  - intros H. exists x. split; [exact H | apply String.eqb_refl].
Qed.

Lemma first_occurrence (c : string) (l : list string) :
  In c l -> exists pre post, l = pre ++ c :: post /\ ~ In c pre.
Proof.
  induction l as [|x l IH]; [intros []|].
  intros H. destruct (string_dec x c) as [->|Hne].
  - exists [], l. split; [reflexivity | intros []].
  - destruct H as [H|H]; [congruence|].
    destruct (IH H) as (pre & post & -> & Hpre).
    exists (x :: pre), post. split; [reflexivity|].
    intros [E|E]; [congruence | now apply Hpre].
Qed.

Lemma In_firstn {A : Type} (x : A) (k : nat) (l : list A) :
  In x (firstn k l) -> In x l.
Proof.
  revert l. induction k as [|k IH]; intros [|y l]; simpl; try tauto.
  intros [H|H]; [now left | right; now apply IH].
Qed.

Lemma mem_firstn_first (c : string) (pre post : list string) (k : nat) :
  ~ In c pre ->
  Py.mem c (firstn k (pre ++ c :: post)) = (List.length pre <? k)%nat.
Proof.
  revert k. induction pre as [|x pre IH]; intros k Hnot.
  - destruct k; simpl; [reflexivity|]. unfold Py.mem. simpl.
    now rewrite String.eqb_refl.
  - destruct k; [reflexivity|].
    change (Py.mem c (x :: firstn k (pre ++ c :: post))
            = (List.length pre <? k)%nat).
    unfold Py.mem in *. simpl.
    destruct (String.eqb_spec c x) as [->|_].
    + exfalso. apply Hnot. now left.
    + apply IH. intros H. apply Hnot. now right.
Qed.

Lemma score_mention_hit
      (topk : tally) (c : string) (pre post : list string) :
  ~ In c pre ->
  score_mention topk c (Some (pre ++ c :: post)) =
    Topk (top1 topk + (if Py.len pre <=? 0 then 1 else 0))
         (top3 topk + (if Py.len pre <=? 2 then 1 else 0))
         (top5 topk + (if Py.len pre <=? 4 then 1 else 0))
         (top10 topk + (if Py.len pre <=? 9 then 1 else 0))
         (topinf topk + 1).
Proof.
  intros Hnot. unfold score_mention.
  destruct (pre ++ c :: post) eqn:E.
  - destruct pre; discriminate.
  - rewrite <- E, scan_qids_first_match by assumption.
    apply bucket_hit_eq.
Qed.

Lemma score_mention_within (t : tally) (alg_qids : dict (list string))
      (item : string * string) :
  score_mention t (snd item) (dict_get alg_qids (fst item)) =
    Topk (top1 t + Z.b2z (within (Some 1%nat) alg_qids item))
         (top3 t + Z.b2z (within (Some 3%nat) alg_qids item))
         (top5 t + Z.b2z (within (Some 5%nat) alg_qids item))
         (top10 t + Z.b2z (within (Some 10%nat) alg_qids item))
         (topinf t + Z.b2z (within None alg_qids item)).
Proof.
  unfold within. destruct item as [m c]. simpl fst. simpl snd.
  destruct (dict_get alg_qids m) as [qids|].
  2:{ simpl. rewrite !Z.add_0_r. now destruct t. }
  destruct (in_dec string_dec c qids) as [Hin|Hout].
  - destruct (first_occurrence c qids Hin) as (pre & post & -> & Hpre).
    rewrite (score_mention_hit t c pre post Hpre).
    rewrite !mem_firstn_first by assumption.
    assert (Hm : Py.mem c (pre ++ c :: post) = true).
    { apply mem_In, in_or_app. right. now left. }
    rewrite Hm. unfold Py.len.
    f_equal; f_equal;
      match goal with
      | |- (if ?a <=? ?b then _ else _) = Z.b2z (?x <? ?y)%nat =>
          destruct (Z.leb_spec a b), (Nat.ltb_spec x y); simpl; lia
      | _ => reflexivity
      end.
  - assert (Hm : Py.mem c qids = false).
    { destruct (Py.mem c qids) eqn:E; [|reflexivity].
      apply mem_In in E. contradiction. }
    assert (Hk : forall k, Py.mem c (firstn k qids) = false).
    { intros k. destruct (Py.mem c (firstn k qids)) eqn:E; [|reflexivity].
      apply mem_In in E. elim Hout. exact (In_firstn _ _ _ E). }
    rewrite !Hk, Hm.
    destruct qids as [|q qids]; unfold score_mention.
    + simpl. rewrite !Z.add_0_r. now destruct t.
    + rewrite scan_qids_no_match by assumption.
      simpl. rewrite !Z.add_0_r. now destruct t.
Qed.

Lemma hits_cons (k : option nat) (item : string * string) (d : dict string)
      (alg_qids : dict (list string)) :
  hits k (item :: d) alg_qids = Z.b2z (within k alg_qids item) + hits k d alg_qids.
Proof.
  unfold hits, Py.len. simpl filter.
  destruct (within k alg_qids item); simpl Z.b2z; simpl List.length; lia.
Qed.

Lemma topk_counts_hits (data_to_qid : dict string) (alg_qids : dict (list string)) :
  topk_counts data_to_qid alg_qids =
    Topk (hits (Some 1%nat) data_to_qid alg_qids)
         (hits (Some 3%nat) data_to_qid alg_qids)
         (hits (Some 5%nat) data_to_qid alg_qids)
         (hits (Some 10%nat) data_to_qid alg_qids)
         (hits None data_to_qid alg_qids).
Proof.
  unfold topk_counts.
  enough (H : forall t,
             fold_left (fun topk item =>
                          score_mention topk (snd item) (dict_get alg_qids (fst item)))
                       data_to_qid t =
               Topk (top1 t + hits (Some 1%nat) data_to_qid alg_qids)
                    (top3 t + hits (Some 3%nat) data_to_qid alg_qids)
                    (top5 t + hits (Some 5%nat) data_to_qid alg_qids)
                    (top10 t + hits (Some 10%nat) data_to_qid alg_qids)
                    (topinf t + hits None data_to_qid alg_qids))
    by (rewrite H; reflexivity).
  induction data_to_qid as [|item d IH]; intros t.
  - simpl. unfold hits. simpl. rewrite !Z.add_0_r. now destruct t.
  - simpl fold_left. rewrite IH, score_mention_within, !hits_cons. simpl.
    f_equal; lia.
Qed.


Lemma hits_permutation (k : option nat) (d d' : dict string)
      (alg_qids : dict (list string)) :
  Permutation d d' -> hits k d alg_qids = hits k d' alg_qids.
Proof.
  intros H. induction H as [|x l l' _ IH|x y l|l l' l'' _ IH1 _ IH2].
  - reflexivity.
  - rewrite !hits_cons. lia.
  - rewrite !hits_cons. lia.
  - congruence.
Qed.

Section ReportFacts.

Context {World : Type}.
Implicit Type st : @state World.

(** X1. On a non-empty correct-label map the report line holds, for k = 1,
    3, 5, 10, the number of mentions whose correct identifier is among the
    first k predicted candidates, and the number of mentions whose correct
    identifier is predicted at all, each over the number of mentions. *)
Theorem get_topk_accuracy_reports_hits (data_to_qid : dict string)
        (alg_qids : dict (list string)) st :
  data_to_qid <> [] ->
  get_topk_accuracy data_to_qid alg_qids st =
    (Ok tt,
     State (world st) (sent st) (logged st)
           (printed st ++
              [OutTopk
                 (Ratio (hits (Some 1%nat) data_to_qid alg_qids) (Py.len data_to_qid))
                 (Ratio (hits (Some 3%nat) data_to_qid alg_qids) (Py.len data_to_qid))
                 (Ratio (hits (Some 5%nat) data_to_qid alg_qids) (Py.len data_to_qid))
                 (Ratio (hits (Some 10%nat) data_to_qid alg_qids) (Py.len data_to_qid))
                 (Ratio (hits None data_to_qid alg_qids) (Py.len data_to_qid))
                 (hits None data_to_qid alg_qids)])).
Proof.
  intros Hne. rewrite get_topk_accuracy_run.
  assert (Hlen : (Py.len data_to_qid =? 0) = false).
  { apply Z.eqb_neq. unfold Py.len. destruct data_to_qid; [congruence | simpl; lia]. }
  rewrite Hlen, topk_counts_hits. reflexivity.
Qed.

End ReportFacts.

Lemma get_topk_accuracy_reports_hits_witness :
  [("A", "Q1"); ("B", "Q2")] <> []
  /\ printed (snd (get_topk_accuracy
                     [("A", "Q1"); ("B", "Q2")]
                     [("A", ["Q9"; "Q1"]); ("B", ["Q2"])] start)) =
       [OutTopk (Ratio 1 2) (Ratio 2 2) (Ratio 2 2) (Ratio 2 2) (Ratio 2 2) 2].
Proof.
  split; [discriminate|].
  rewrite (get_topk_accuracy_reports_hits
             [("A", "Q1"); ("B", "Q2")] [("A", ["Q9"; "Q1"]); ("B", ["Q2"])] start
             ltac:(discriminate)).
  reflexivity.
Defined.

(** X2. The counters do not depend on the order in which the correct-label
    map lists its mentions. *)
Theorem topk_counts_permutation (d d' : dict string) (alg_qids : dict (list string)) :
  Permutation d d' -> topk_counts d alg_qids = topk_counts d' alg_qids.
Proof.
  intros H. rewrite !topk_counts_hits.
  now rewrite !(hits_permutation _ d d' alg_qids H).
Qed.

Lemma topk_counts_permutation_witness :
  Permutation [("A", "Q1"); ("B", "Q2")] [("B", "Q2"); ("A", "Q1")]
  /\ topk_counts [("A", "Q1"); ("B", "Q2")] [("A", ["Q9"; "Q1"])] =
     topk_counts [("B", "Q2"); ("A", "Q1")] [("A", ["Q9"; "Q1"])].
Proof.
  split; [apply perm_swap|].
  exact (topk_counts_permutation _ _ [("A", ["Q9"; "Q1"])]
           (perm_swap ("B", "Q2") ("A", "Q1") [])).
Defined.


(** ** Autocomplete sub-queries *)

Section SubQueryFacts.

Context {World : Type}.
Variable wd_get : World -> string -> wd_reply * World.
Implicit Type st : @state World.

Lemma collect_ids_all (data : string) (ids : list string) :
  forall qids st, collect_ids data (map Some ids) qids st = (Ok (qids ++ ids), st).
Proof.
  induction ids as [|id ids IH]; intros qids st; simpl.
  - now rewrite app_nil_r.
  - rewrite IH, <- app_assoc. reflexivity.
Qed.

Lemma collect_ids_until (data : string) (ids : list string)
      (rest : list (option string)) :
  forall qids st,
    collect_ids data (map Some ids ++ None :: rest) qids st =
      (Ok (qids ++ ids),
       State (world st) (sent st) (logged st ++ [LogQueryError data]) (printed st)).
Proof.
  induction ids as [|id ids IH]; intros qids st; simpl.
  - now rewrite app_nil_r.
  - rewrite IH, <- app_assoc. reflexivity.
Qed.

(** X4. When the service answers with success flag 1 and every candidate
    carries an identifier, the sub-query returns exactly these identifiers
    in the order of the answer, sends one request and logs nothing. *)
Theorem invoke_wikidata_api_success (data : string) (ids : list string) st (w : World) :
  wd_get (world st) data = (WdJson 1 (map Some ids), w) ->
  invoke_wikidata_api wd_get data st =
    (Ok ids, State w (sent st ++ [WdGet data]) (logged st) (printed st)).
Proof.
  intros E. unfold invoke_wikidata_api, bind, requests_get. rewrite E.
  simpl. now rewrite collect_ids_all.
Qed.

(** X5. A failure of the call, a success flag other than 1, or a candidate
    without identifier never raises: one error is logged, and the result is
    empty in the first two cases and holds the identifiers before the
    defective candidate in the third. *)
Theorem invoke_wikidata_api_degraded (data : string) st (w : World) :
  (wd_get (world st) data = (WdFailure, w) ->
   invoke_wikidata_api wd_get data st =
     (Ok [], State w (sent st ++ [WdGet data])
                   (logged st ++ [LogQueryError data]) (printed st)))
  /\ (forall success search,
        wd_get (world st) data = (WdJson success search, w) ->
        success <> 1 ->
        invoke_wikidata_api wd_get data st =
          (Ok [], State w (sent st ++ [WdGet data])
                        (logged st ++ [LogFailedQuery data]) (printed st)))
  /\ (forall ids rest,
        wd_get (world st) data = (WdJson 1 (map Some ids ++ None :: rest), w) ->
        invoke_wikidata_api wd_get data st =
          (Ok ids, State w (sent st ++ [WdGet data])
                         (logged st ++ [LogQueryError data]) (printed st))).
Proof.
  split; [|split].
  - intros E. unfold invoke_wikidata_api, bind, requests_get. now rewrite E.
  - intros success search E Hne.
    unfold invoke_wikidata_api, bind, requests_get. rewrite E.
    destruct (Z.eqb_spec success 1); [congruence | reflexivity].
  - intros ids rest E.
    unfold invoke_wikidata_api, bind, requests_get. rewrite E.
    simpl. now rewrite collect_ids_until.
Qed.

End SubQueryFacts.

Lemma invoke_wikidata_api_success_witness :
  table_wd sample_table tt "tomcat" = (WdJson 1 (map Some ["Q4"]), tt)
  /\ invoke_wikidata_api (table_wd sample_table) "tomcat" start =
       (Ok ["Q4"], State tt [WdGet "tomcat"] [] []).
Proof.
  split; [reflexivity|].
  exact (invoke_wikidata_api_success (table_wd sample_table) "tomcat" ["Q4"]
           start tt eq_refl).
Defined.

Lemma invoke_wikidata_api_degraded_witness :
  offline_wd tt "tomcat" = (WdFailure, tt)
  /\ invoke_wikidata_api offline_wd "tomcat" start =
       (Ok [], State tt [WdGet "tomcat"] [LogQueryError "tomcat"] []).
Proof.
  split; [reflexivity|].
  exact (proj1 (invoke_wikidata_api_degraded offline_wd "tomcat" start tt) eq_refl).
Defined.

(** ** Requests of one mention *)

Lemma split_not_nil (sep : ascii) (s : string) : Py.split sep s <> [].
Proof.
  destruct s as [|c s]; simpl; [discriminate|].
  destruct (Ascii.eqb c sep); [discriminate|].
  destruct (Py.split sep s); discriminate.
Qed.

Lemma concat_cons_cons (sep x : string) (l : list string) :
  l <> [] -> String.concat sep (x :: l) = (x ++ sep ++ String.concat sep l)%string.
Proof.
  destruct l; [congruence | reflexivity].
Qed.

(** Joining the tokens of a mention with the separator gives the mention
    back. *)
Lemma join_split (s : string) :
  Py.join " " (Py.split " "%char s) = s.
Proof.
  unfold Py.join. induction s as [|c s IH]; [reflexivity|].
  cbn [Py.split]. destruct (Ascii.eqb_spec c " "%char) as [->|Hc].
  - rewrite concat_cons_cons by apply split_not_nil.
    rewrite IH. reflexivity.
  - pose proof (split_not_nil " "%char s) as Hne.
    destruct (Py.split " "%char s) as [|w ws]; [congruence|].
    destruct ws as [|w' ws].
    + simpl in *. now rewrite IH.
    + rewrite concat_cons_cons by discriminate.
      rewrite concat_cons_cons in IH by discriminate.
      rewrite <- IH. reflexivity.
Qed.


Section RequestFacts.

Context {World : Type}.
Variable wd_get : World -> string -> wd_reply * World.
Implicit Type st : @state World.


(** X7. The first combination over all tokens is the mention itself, so the
    exact text of the mention is requested a second time, right after the
    per-token requests. *)
Theorem get_wikidata_qids_repeats_exact (data : string) st :
  exists wd_qids st' others,
    get_wikidata_qids wd_get data st = (Ok wd_qids, st')
    /\ sent st' =
         sent st ++ [WdGet data] ++ map WdGet (Py.split " "%char data)
                 ++ [WdGet data] ++ others.
Proof.
  set (fragments := Py.split " "%char data).
  destruct (invoke_wikidata_api_total wd_get data st) as (exact & st1 & E1 & S1 & _).
  destruct (map_each_invoke_total wd_get fragments st1) as (frs & st2 & E2 & S2 & _).
  destruct (map_each_invoke_total wd_get (get_data_combinations fragments) st2)
    as (all & st3 & E3 & S3 & _).
  set (valid := dict_keys (Py.sorted candidate_count
                             (record_valid (combine fragments frs) []))).
  destruct (map_each_invoke_total wd_get (get_data_combinations valid) st3)
    as (by_count & st4 & E4 & S4 & _).
  destruct (get_wikidata_qids_run wd_get data st _ _ _ _ _ _ _ _ E1 E2 E3 E4)
    as (st' & E & S & _).
  rewrite get_data_combinations_eq in S3. unfold fragments in S3 at 1.
  rewrite join_split in S3. fold fragments in S3. simpl map in S3.
  eexists _, st', _. split; [exact E|].
  rewrite S, S4, S3, S2, S1. rewrite <- !app_assoc. simpl. reflexivity.
Qed.

(** X8. On a correct-label map with pairwise distinct mentions the
    autocomplete strategy returns, without raising and without printing, a
    map whose keys are the mentions in the same order. *)
Theorem run_wikidata_autocomplete_keys (data_to_qid : dict string) st :
  dict_wf data_to_qid ->
  exists wd_qids st',
    run_wikidata_autocomplete wd_get data_to_qid st = (Ok wd_qids, st')
    /\ dict_keys wd_qids = dict_keys data_to_qid
    /\ printed st' = printed st.
Proof.
  intros Hwf.
  destruct (map_each_get_wikidata_qids_total wd_get (dict_keys data_to_qid) st)
    as (rs & st' & E & Hk & P).
  exists (dict_of_items (List.concat rs)), st'.
  unfold run_wikidata_autocomplete, bind, ret. rewrite E.
  split; [reflexivity|]. split; [|exact P].
  rewrite dict_of_items_wf by (rewrite Hk; exact Hwf).
  exact Hk.
Qed.

End RequestFacts.

Lemma run_wikidata_autocomplete_keys_witness :
  dict_wf [("apache tomcat", "Q4"); ("tomcat", "Q4")]
  /\ exists wd_qids st',
       run_wikidata_autocomplete (table_wd sample_table)
                                 [("apache tomcat", "Q4"); ("tomcat", "Q4")] start
       = (Ok wd_qids, st')
       /\ dict_keys wd_qids = ["apache tomcat"; "tomcat"]
       /\ printed st' = [].
Proof.
  assert (H : dict_wf [("apache tomcat", "Q4"); ("tomcat", "Q4")]).
  { unfold dict_wf. simpl. repeat constructor; simpl; intuition discriminate. }
  split; [exact H|].
  exact (run_wikidata_autocomplete_keys (table_wd sample_table) _ start H).
Defined.

(** ** CandidateAggregator: entity-linking strategy *)

Lemma str_inj (a b : Z) : Py.str a = Py.str b -> a = b.
Proof.
  unfold Py.str. intros H.
  assert (Hnil : forall z, Z.to_int z <> Decimal.Pos Decimal.Nil
                           /\ Z.to_int z <> Decimal.Neg Decimal.Nil).
  { intros z. split; intros E; pose proof (DecimalZ.of_to z) as R;
      rewrite E in R; simpl in R; subst z; discriminate E. }
  apply (f_equal NilZero.int_of_string) in H.
  rewrite !NilZero.isi in H by apply Hnil.
  injection H as H. apply (f_equal Z.of_int) in H.
  now rewrite !DecimalZ.of_to in H.
Qed.

Lemma dict_set_set {V : Type} (d : dict V) (k : string) (v v' : V) :
  dict_set (dict_set d k v) k v' = dict_set d k v'.
Proof.
  induction d as [|[k0 v0] d IH]; simpl.
  - now rewrite String.eqb_refl.
  - destruct (String.eqb k0 k) eqn:E; simpl; rewrite E; [reflexivity | now rewrite IH].
Qed.

Lemma dict_get_not_in_keys {V : Type} (d : dict V) (k : string) :
  ~ In k (dict_keys d) -> dict_get d k = None.
Proof.
  induction d as [|[k' v'] d IH]; simpl; [reflexivity|].
  intros H. destruct (String.eqb_spec k' k) as [->|_]; [tauto|].
  apply IH. tauto.
Qed.

Lemma fold_dict_append (mention : string) (cdata : list string) :
  forall (d : dict (list string)) (l : list string),
    fold_left (fun el_qids qid => dict_append el_qids mention qid) cdata
              (dict_set d mention l)
    = dict_set d mention (l ++ cdata).
Proof.
  induction cdata as [|q cdata IH]; intros d l; simpl.
  - now rewrite app_nil_r.
  - unfold dict_append at 2. rewrite dict_get_set_same, dict_set_set, IH.
    now rewrite <- app_assoc.
Qed.

(** The table [id_to_data] and the payload, as built by the first loop of
    [run_entity_linking]. *)
Lemma el_first_loop (context : string) (items : list (Z * (string * string))) :
  forall payload id_to_data,
    fold_left (fun acc item =>
                 let '(payload, id_to_data) := acc in
                 let '(i, (data, qid)) := item in
                 (payload ++ [ElRecord i data "" context],
                  dict_set id_to_data (Py.str i) (data, qid)))
              items (payload, id_to_data)
    = (payload ++ map (fun item => ElRecord (fst item) (fst (snd item)) "" context) items,
       fold_left (fun t kv => dict_set t (fst kv) (snd kv))
                 (map (fun item => (Py.str (fst item), snd item)) items) id_to_data).
Proof.
  induction items as [|[i [data qid]] items IH]; intros payload id_to_data; simpl.
  - now rewrite app_nil_r.
  - rewrite IH, <- app_assoc. reflexivity.
Qed.

Lemma enumerate_keys_NoDup {A : Type} (l : list A) :
  NoDup (map fst (map (fun item : Z * A => (Py.str (fst item), snd item))
                      (Py.enumerate l))).
Proof.
  rewrite map_map. simpl.
  unfold Py.enumerate.
  assert (H : map (fun x : Z * A => Py.str (fst x))
                  (combine (map Z.of_nat (seq 0 (List.length l))) l)
              = map (fun k => Py.str (Z.of_nat k)) (seq 0 (List.length l))).
  { generalize 0%nat. induction l as [|x l IH]; intros a; simpl; [reflexivity|].
    now rewrite IH. }
  rewrite H. apply Finite.Injective_map_NoDup; [|apply seq_NoDup].
  intros x y E. apply str_inj in E. lia.
Qed.

Lemma id_table_eq {A : Type} (l : list A) :
  fold_left (fun t kv => dict_set t (fst kv) (snd kv))
            (map (fun item : Z * A => (Py.str (fst item), snd item)) (Py.enumerate l)) []
  = map (fun item : Z * A => (Py.str (fst item), snd item)) (Py.enumerate l).
Proof.
  apply (dict_of_items_wf (map (fun item : Z * A => (Py.str (fst item), snd item))
                               (Py.enumerate l))).
  apply enumerate_keys_NoDup.
Qed.

Lemma id_table_get {A : Type} (l : list A) (k : nat) :
  dict_get (map (fun item : Z * A => (Py.str (fst item), snd item)) (Py.enumerate l))
           (Py.str (Z.of_nat k))
  = nth_error l k.
Proof.
  unfold Py.enumerate.
  enough (H : forall a,
             dict_get (map (fun item : Z * A => (Py.str (fst item), snd item))
                           (combine (map Z.of_nat (seq a (List.length l))) l))
                      (Py.str (Z.of_nat (a + k)))
             = nth_error l k) by exact (H 0%nat).
  revert k. induction l as [|x l IH]; intros k a; simpl.
  - now destruct k.
  - destruct (String.eqb_spec (Py.str (Z.of_nat a)) (Py.str (Z.of_nat (a + k))))
      as [E|E].
    + apply str_inj in E. assert (k = 0%nat) by lia. now subst k.
    + destruct k as [|k]; [exfalso; apply E; f_equal; f_equal; lia|].
      simpl. replace (a + S k)%nat with (S a + k)%nat by lia. apply IH.
Qed.

Lemma id_table_get_inv {A : Type} (l : list A) (i : string) (item : A) :
  dict_get (map (fun item : Z * A => (Py.str (fst item), snd item)) (Py.enumerate l)) i
  = Some item ->
  exists k, i = Py.str (Z.of_nat k) /\ nth_error l k = Some item.
Proof.
  unfold Py.enumerate.
  enough (H : forall a,
             dict_get (map (fun item : Z * A => (Py.str (fst item), snd item))
                           (combine (map Z.of_nat (seq a (List.length l))) l)) i
             = Some item ->
             exists k, i = Py.str (Z.of_nat (a + k)) /\ nth_error l k = Some item)
    by exact (H 0%nat).
  induction l as [|x l IH]; intros a; simpl; [discriminate|].
  destruct (String.eqb_spec (Py.str (Z.of_nat a)) i) as [E|E].
  - intros [= <-]. exists 0%nat. split; [|reflexivity]. rewrite <- E. f_equal. f_equal. lia.
  - intros H. destruct (IH (S a) H) as (k & -> & Hk).
    exists (S k). split; [|exact Hk]. f_equal. f_equal. lia.
Qed.

Lemma fold_dict_append_pairs {Score : Type} (mention : string)
      (cdata : list (Score * string)) :
  forall (d : dict (list string)) (l : list string),
    fold_left (fun el_qids candidate =>
                 let qid := snd candidate in dict_append el_qids mention qid)
              cdata (dict_set d mention l)
    = dict_set d mention (l ++ map snd cdata).
Proof.
  induction cdata as [|q cdata IH]; intros d l; simpl.
  - now rewrite app_nil_r.
  - unfold dict_append at 2. rewrite dict_get_set_same, dict_set_set, IH.
    now rewrite <- app_assoc.
Qed.

Section LinkingFacts.

Context {World Score : Type}.
Variable el_post : World -> list el_record -> el_reply Score * World.
Implicit Type st : @state World.

(** The second loop of [run_entity_linking] leaves the state alone and
    computes [link_all]. *)
Lemma link_loop_run (id_to_data : dict (string * string))
      (candidates : dict (list (Score * string))) :
  forall (el_qids : dict (list string)) st,
    for_each (fun el_qids item =>
                let '(i, top_k_entities) := item in
                bind (dict_index id_to_data i) (fun entry =>
                let mention := fst entry in
                let el_qids :=
                  dict_set el_qids mention
                           (match dict_get el_qids mention with
                            | Some l => l
                            | None => []
                            end) in
                let cdata := top_k_entities in
                ret (fold_left (fun el_qids candidate =>
                                  let qid := snd candidate in
                                  dict_append el_qids mention qid)
                               cdata el_qids)))
             candidates el_qids st
    = (link_all id_to_data candidates el_qids, st).
Proof.
  match goal with |- context [for_each ?f candidates] => set (body := f) end.
  induction candidates as [|[i cands] candidates IH]; intros el_qids st;
    [reflexivity|].
  cbn [for_each link_all]. unfold bind at 1. unfold body at 1.
  unfold link_step, dict_index, bind. cbn [fst snd].
  destruct (dict_get id_to_data i) as [entry|]; [|reflexivity].
  cbn beta iota zeta. unfold ret at 1.
  rewrite fold_dict_append_pairs. apply IH.
Qed.

Lemma run_entity_linking_run (data_to_qid : dict string) (context : string) st :
  run_entity_linking el_post data_to_qid context st =
    match el_post (world st) (el_payload data_to_qid context) with
    | (ElFailure, w) =>
        (Ok [], State w (sent st ++ [ElPost (el_payload data_to_qid context)])
                      (logged st) (printed st ++ [OutElError]))
    | (ElJson candidates, w) =>
        (link_all (id_table data_to_qid) candidates [],
         State w (sent st ++ [ElPost (el_payload data_to_qid context)])
               (logged st) (printed st))
    end.
Proof.
  unfold run_entity_linking. rewrite el_first_loop. cbn [app].
  rewrite id_table_eq. fold (id_table data_to_qid).
  fold (el_payload data_to_qid context).
  unfold bind at 1. unfold requests_post.
  destruct (el_post (world st) (el_payload data_to_qid context)) as [[|candidates] w].
  - reflexivity.
  - apply link_loop_run.
Qed.

End LinkingFacts.

Lemma enumerate_nth {A : Type} (l : list A) (k : nat) (x : A) :
  nth_error l k = Some x -> nth_error (Py.enumerate l) k = Some (Z.of_nat k, x).
Proof.
  unfold Py.enumerate.
  enough (H : forall a, nth_error l k = Some x ->
                        nth_error (combine (map Z.of_nat (seq a (List.length l))) l) k
                        = Some (Z.of_nat (a + k), x)) by exact (H 0%nat).
  revert k. induction l as [|y l IH]; intros k a; [now destruct k|].
  destruct k as [|k]; simpl.
  - intros [= ->]. do 2 f_equal. lia.
  - intros H. rewrite (IH k (S a) H). do 2 f_equal. lia.
Qed.

Lemma nth_error_key {V : Type} (d : dict V) (k : nat) :
  (k < List.length d)%nat ->
  exists item, nth_error d k = Some item /\ fst item = nth k (dict_keys d) "".
Proof.
  revert k. induction d as [|x d IH]; intros k Hk; simpl in Hk; [lia|].
  destruct k as [|k]; simpl.
  - now exists x.
  - apply IH. lia.
Qed.

Lemma link_all_app {Score : Type} (t : dict (string * string))
      (c1 c2 : dict (list (Score * string))) :
  forall acc,
    link_all t (c1 ++ c2) acc =
      match link_all t c1 acc with
      | Ok acc' => link_all t c2 acc'
      | Raise e => Raise e
      end.
Proof.
  induction c1 as [|item c1 IH]; intros acc; simpl; [reflexivity|].
  destruct (link_step t acc item); [apply IH | reflexivity].
Qed.

(** Answers under distinct sent ids are appended one mention after the other. *)
Lemma link_all_answers {Score : Type} (d : dict string)
      (answers : list (nat * list (Score * string))) :
  dict_wf d ->
  NoDup (map fst answers) ->
  Forall (fun a => (fst a < List.length d)%nat) answers ->
  forall acc,
    (forall a, In a answers -> ~ In (nth (fst a) (dict_keys d) "") (dict_keys acc)) ->
    link_all (id_table d)
             (map (fun a => (Py.str (Z.of_nat (fst a)), snd a)) answers) acc
    = Ok (acc ++ map (fun a => (nth (fst a) (dict_keys d) "", map snd (snd a))) answers).
Proof.
  intros Hwf. induction answers as [|[k cands] answers IH]; intros Hnd Hall acc Hfresh.
  - simpl. now rewrite app_nil_r.
  - inversion Hnd as [|? ? Hk Hnd']; subst.
    inversion Hall as [|? ? Hlt Hall']; subst. simpl in Hlt.
    destruct (nth_error_key d k Hlt) as (item & Hitem & Hfst).
    cbn [map link_all fst snd]. unfold link_step. cbn [fst snd].
    unfold id_table. rewrite id_table_get, Hitem.
    assert (Hout : ~ In (fst item) (dict_keys acc)).
    { rewrite Hfst. apply (Hfresh (k, cands)). now left. }
    rewrite (dict_get_not_in_keys _ _ Hout). cbn [app].
    rewrite dict_set_absent by exact Hout.
    fold (id_table d). rewrite IH; try assumption.
    + rewrite <- app_assoc, Hfst. reflexivity.
    + intros a Ha. unfold dict_keys. rewrite map_app, in_app_iff. simpl.
      intros [H|[H|[]]].
      * apply (Hfresh a); [now right | exact H].
      * rewrite Hfst in H.
        assert (Hlt' : (fst a < List.length d)%nat)
          by exact (proj1 (Forall_forall _ _) Hall' a Ha).
        assert (k = fst a).
        { apply (proj1 (NoDup_nth (dict_keys d) "") Hwf);
            unfold dict_keys; rewrite ?length_map; assumption. }
        apply Hk. subst k. now apply in_map.
Qed.

Lemma link_all_keys {Score : Type} (d : dict string)
      (candidates : dict (list (Score * string))) :
  forall acc el_qids,
    link_all (id_table d) candidates acc = Ok el_qids ->
    (forall key, In key (dict_keys acc) -> In key (dict_keys d)) ->
    forall key, In key (dict_keys el_qids) -> In key (dict_keys d).
Proof.
  induction candidates as [|[i cands] candidates IH]; intros acc el_qids H Hacc.
  - simpl in H. now inversion H; subst.
  - cbn [link_all] in H. unfold link_step in H. cbn [fst snd] in H.
    destruct (dict_get (id_table d) i) as [entry|] eqn:E; [|discriminate].
    apply (IH _ _ H). intros key Hkey.
    apply dict_keys_set_in in Hkey. destruct Hkey as [->|Hkey]; [|now apply Hacc].
    destruct (id_table_get_inv d i entry E) as (k & _ & Hk).
    apply nth_error_In in Hk. unfold dict_keys. now apply in_map.
Qed.

Lemma link_all_valid_ok {Score : Type} (d : dict string)
      (candidates : dict (list (Score * string))) :
  Forall (fun item => exists k, (k < List.length d)%nat
                                /\ fst item = Py.str (Z.of_nat k)) candidates ->
  forall acc, exists el_qids, link_all (id_table d) candidates acc = Ok el_qids.
Proof.
  induction 1 as [|[i cands] candidates (k & Hk & Hi) _ IH]; intros acc.
  - now exists acc.
  - cbn [link_all]. unfold link_step. cbn [fst snd] in *. subst i.
    unfold id_table. rewrite id_table_get.
    destruct (nth_error_key d k Hk) as (item & -> & _).
    apply IH.
Qed.

Section LinkingTheorems.

Context {World Score : Type}.
Variable el_post : World -> list el_record -> el_reply Score * World.
Implicit Type st : @state World.

(** X9. Whatever the service answers, an entity-linking run sends exactly
    one request. Its payload has one record per mention, in the order of the
    correct-label map: the record at position k has id k, the k-th mention,
    an empty left context and the given context on the right. *)
Theorem run_entity_linking_request (data_to_qid : dict string) (context : string) st :
  exists payload,
    sent (snd (run_entity_linking el_post data_to_qid context st))
    = sent st ++ [ElPost payload]
    /\ List.length payload = List.length data_to_qid
    /\ forall k item,
        nth_error data_to_qid k = Some item ->
        nth_error payload k = Some (ElRecord (Z.of_nat k) (fst item) "" context).
Proof.
  exists (el_payload data_to_qid context). split; [|split].
  - rewrite run_entity_linking_run.
    destruct (el_post (world st) (el_payload data_to_qid context))
      as [[|candidates] w]; reflexivity.
  - unfold el_payload, Py.enumerate.
    rewrite length_map, length_combine, length_map, length_seq. lia.
  - intros k item Hk. unfold el_payload.
    rewrite nth_error_map, (enumerate_nth _ _ _ Hk). reflexivity.
Qed.

(** X10. When the service answers under pairwise distinct ids of the
    batch, the result lists the answered mentions in the order of the
    answer, each with the second components of its candidate pairs in
    their order; nothing is printed or logged. *)
Theorem run_entity_linking_answers (data_to_qid : dict string) (context : string) st
        (answers : list (nat * list (Score * string))) (w : World) :
  dict_wf data_to_qid ->
  NoDup (map fst answers) ->
  Forall (fun a => (fst a < List.length data_to_qid)%nat) answers ->
  (forall payload,
      el_post (world st) payload =
        (ElJson (map (fun a => (Py.str (Z.of_nat (fst a)), snd a)) answers), w)) ->
  exists st',
    run_entity_linking el_post data_to_qid context st =
      (Ok (map (fun a => (nth (fst a) (dict_keys data_to_qid) "", map snd (snd a)))
               answers),
       st')
    /\ printed st' = printed st /\ logged st' = logged st.
Proof.
  intros Hwf Hnd Hall Hreply. rewrite run_entity_linking_run, Hreply.
  rewrite (link_all_answers data_to_qid answers Hwf Hnd Hall []).
  - eexists. split; [reflexivity|]. split; reflexivity.
  - intros a _ [].
Qed.

(** X11. An answer that carries an id the batch did not send is not
    caught: [KeyError] for the first such id escapes the run. *)
Theorem run_entity_linking_unknown_id (data_to_qid : dict string) (context : string) st
        (known rest : dict (list (Score * string))) (i : string)
        (cands : list (Score * string)) (w : World) :
  Forall (fun item => exists k, (k < List.length data_to_qid)%nat
                                /\ fst item = Py.str (Z.of_nat k)) known ->
  (forall k, (k < List.length data_to_qid)%nat -> Py.str (Z.of_nat k) <> i) ->
  (forall payload,
      el_post (world st) payload = (ElJson (known ++ (i, cands) :: rest), w)) ->
  exists st',
    run_entity_linking el_post data_to_qid context st = (Raise (KeyError i), st').
Proof.
  intros Hknown Hunknown Hreply. rewrite run_entity_linking_run, Hreply.
  rewrite link_all_app.
  destruct (link_all_valid_ok data_to_qid known Hknown []) as (acc & ->).
  cbn [link_all]. unfold link_step. cbn [fst].
  destruct (dict_get (id_table data_to_qid) i) as [entry|] eqn:E.
  - destruct (id_table_get_inv data_to_qid i entry E) as (k & -> & Hk).
    exfalso. apply (Hunknown k); [|reflexivity].
    apply nth_error_Some. congruence.
  - eexists. reflexivity.
Qed.

(** X12. Every key of an entity-linking result is a mention of the
    correct-label map. *)
Theorem run_entity_linking_keys (data_to_qid : dict string) (context : string) st
        (el_qids : dict (list string)) st' :
  run_entity_linking el_post data_to_qid context st = (Ok el_qids, st') ->
  forall key, In key (dict_keys el_qids) -> In key (dict_keys data_to_qid).
Proof.
  rewrite run_entity_linking_run.
  destruct (el_post (world st) (el_payload data_to_qid context))
    as [[|candidates] w]; intros H.
  - inversion H; subst. intros key [].
  - inversion H as [[Hl Hs]].
    apply (link_all_keys data_to_qid candidates [] el_qids Hl). intros key [].
Qed.

End LinkingTheorems.

Lemma run_entity_linking_request_witness :
  exists payload,
    sent (snd (run_entity_linking offline_el [("nginx", "Q1"); ("redis", "Q2")]
                                  "software" start))
    = [ElPost payload]
    /\ nth_error payload 1 = Some (ElRecord 1 "redis" "" "software").
Proof.
  destruct (run_entity_linking_request offline_el [("nginx", "Q1"); ("redis", "Q2")]
                                       "software" start)
    as (payload & Hs & _ & Hn).
  exists payload. split; [exact Hs|].
  exact (Hn 1%nat ("redis", "Q2") eq_refl).
Defined.

Lemma run_entity_linking_answers_witness :
  dict_wf [("nginx", "Q1"); ("redis", "Q2")]
  /\ exists st',
       run_entity_linking
         (fun (w : unit) (_ : list el_record) =>
            (ElJson [("0", [("0.9", "Q1")]); ("1", [])], w))
         [("nginx", "Q1"); ("redis", "Q2")] "" start
       = (Ok [("nginx", ["Q1"]); ("redis", [])], st')
       /\ printed st' = [] /\ logged st' = [].
Proof.
  assert (Hwf : dict_wf [("nginx", "Q1"); ("redis", "Q2")]).
  { unfold dict_wf. simpl. repeat constructor; simpl; intuition discriminate. }
  split; [exact Hwf|].
  refine (run_entity_linking_answers
            (fun (w : unit) (_ : list el_record) =>
               (ElJson [("0", [("0.9", "Q1")]); ("1", [])], w))
            [("nginx", "Q1"); ("redis", "Q2")] "" start
            [(0%nat, [("0.9", "Q1")]); (1%nat, [])] tt Hwf _ _ (fun _ => eq_refl)).
  - simpl. repeat constructor; simpl; intuition discriminate.
  - repeat constructor; simpl; lia.
Defined.

Lemma run_entity_linking_unknown_id_witness :
  exists st',
    run_entity_linking
      (fun (w : unit) (_ : list el_record) =>
         (ElJson [("0", [("0.9", "Q1")]); ("7", [])], w))
      [("nginx", "Q1"); ("redis", "Q2")] "" start
    = (Raise (KeyError "7"), st').
Proof.
  refine (run_entity_linking_unknown_id
            (fun (w : unit) (_ : list el_record) =>
               (ElJson [("0", [("0.9", "Q1")]); ("7", [])], w))
            [("nginx", "Q1"); ("redis", "Q2")] "" start
            [("0", [("0.9", "Q1")])] [] "7" [] tt _ _ (fun _ => eq_refl)).
  - constructor; [|constructor]. exists 0%nat. split; [simpl; lia | reflexivity].
  - intros k Hk. simpl in Hk.
    destruct k as [|[|k]]; [discriminate | discriminate | lia].
Defined.

Lemma run_entity_linking_keys_witness :
  run_entity_linking first_only_el [("nginx", "Q1"); ("redis", "Q2")] "software" start
  = (Ok [("nginx", ["Q1"])],
     State tt [ElPost [ElRecord 0 "nginx" "" "software";
                       ElRecord 1 "redis" "" "software"]] [] [])
  /\ In "nginx" (dict_keys [("nginx", "Q1"); ("redis", "Q2")]).
Proof.
  split; [reflexivity|].
  exact (run_entity_linking_keys first_only_el [("nginx", "Q1"); ("redis", "Q2")]
           "software" start [("nginx", ["Q1"])] _ eq_refl "nginx" (or_introl eq_refl)).
Defined.

(** ** ZeroShotRunner: empty test set and complete answers *)



Section ZeroShotFacts.

Context {World Score : Type}.
Variable wd_get : World -> string -> wd_reply * World.
Variable el_post : World -> list el_record -> el_reply Score * World.
Implicit Type st : @state World.



(** X13. On an empty test set [run_zero_shot] never completes: it raises
    [ZeroDivisionError] at the first report, or [KeyError] when the linking
    service answers with some id; no autocomplete request has been sent. *)
Theorem run_zero_shot_empty st :
  exists e st',
    run_zero_shot wd_get el_post [] st = (Raise e, st')
    /\ (e = ZeroDivisionError \/ exists i, e = KeyError i)
    /\ sent st' = sent st ++ [ElPost []].
Proof.
  unfold run_zero_shot.
  do 3 (unfold bind at 1; cbn [print]).
  unfold bind at 1. rewrite run_entity_linking_run.
  cbn [el_payload id_table Py.enumerate List.length seq map combine world sent].
  destruct (el_post (world st) []) as [[|[|[i cands] candidates]] w].
  - unfold bind at 1; cbn [print]. unfold bind at 1.
    rewrite get_topk_accuracy_run. cbn.
    eexists _, _. split; [reflexivity|]. split; [now left | reflexivity].
  - cbn [link_all]. unfold bind at 1; cbn [print]. unfold bind at 1.
    rewrite get_topk_accuracy_run. cbn.
    eexists _, _. split; [reflexivity|]. split; [now left | reflexivity].
  - cbn. eexists _, _. split; [reflexivity|]. split; [right; now exists i | reflexivity].
Qed.


End ZeroShotFacts.


(** The same run in full: linking finds the identifier at rank 0, the
    unreachable autocomplete service finds nothing. *)
Example run_zero_shot_echo :
  printed (snd (run_zero_shot offline_wd echo_el [("nginx", "nginx")] start)) =
    [OutRule; OutZeroShotBanner 1; OutRule;
     OutTook ElNoCtx;
     OutTopk (Ratio 1 1) (Ratio 1 1) (Ratio 1 1) (Ratio 1 1) (Ratio 1 1) 1;
     OutTook WdApi;
     OutTopk (Ratio 0 1) (Ratio 0 1) (Ratio 0 1) (Ratio 0 1) (Ratio 0 1) 0;
     OutTook ElSoftware;
     OutTopk (Ratio 1 1) (Ratio 1 1) (Ratio 1 1) (Ratio 1 1) (Ratio 1 1) 1]
  /\ logged (snd (run_zero_shot offline_wd echo_el [("nginx", "nginx")] start)) =
       [LogQueryError "nginx"; LogQueryError "nginx"; LogQueryError "nginx";
        LogQueryError ""; LogNoQids "nginx"; LogNotIn "nginx" "nginx" []].
Proof. split; reflexivity. Qed.

(** ** FewShotRunner: edge cases *)

Section FewShotEdges.

Context {World : Type}.
Implicit Type st : @state World.

Lemma for_each_app {A B : Type} (f : B -> A -> M B) (l1 l2 : list A) :
  forall (acc : B) st,
    for_each f (l1 ++ l2) acc st =
      match for_each f l1 acc st with
      | (Ok acc', st') => for_each f l2 acc' st'
      | (Raise e, st') => (Raise e, st')
      end.
Proof.
  induction l1 as [|x l1 IH]; intros acc st; [reflexivity|].
  cbn [app for_each]. unfold bind.
  destruct (f acc x st) as [[acc'|e] st1]; [apply IH | reflexivity].
Qed.

Lemma bind_raise {A B : Type} (c : M A) (k : A -> M B) st (e : exn) st' :
  c st = (Raise e, st') -> bind c k st = (Raise e, st').
Proof. intros E. unfold bind. now rewrite E. Qed.

(** X16. On an empty few-shot test set the banner is printed and the
    accuracy line divides by zero: [ZeroDivisionError] escapes. *)
Theorem run_few_shot_empty (entities : list (string * string * string * string))
        (tech_sim_scores : list (list string)) st :
  run_few_shot entities [] tech_sim_scores st =
    (Raise ZeroDivisionError,
     State (world st) (sent st) (logged st)
           (printed st ++ [OutRule; OutFewShotBanner 0; OutRule])).
Proof.
  unfold run_few_shot. cbn [dict_keys map combine for_each].
  unfold bind, ret, print, py_truediv. cbn.
  rewrite <- !app_assoc. reflexivity.
Qed.

(** X17. When the standardizer's answer for some mention is an empty
    entry, reading its first element raises [IndexError]: the run ends
    before anything is printed. *)
Theorem run_few_shot_empty_entity (entities : list (string * string * string * string))
        (data_to_eid : dict string) (good rest : list (list string)) st :
  Forall (fun entity => entity <> []) good ->
  (List.length good < List.length data_to_eid)%nat ->
  exists st',
    run_few_shot entities data_to_eid (good ++ [] :: rest) st = (Raise IndexError, st')
    /\ printed st' = printed st.
Proof.
  intros Hgood Hlen. unfold run_few_shot.
  match goal with |- context [fold_left ?f entities []] =>
    set (entity_to_eid := fold_left f entities []) end.
  set (mentions := dict_keys data_to_eid).
  assert (Hm : (List.length good < List.length mentions)%nat).
  { unfold mentions, dict_keys. now rewrite length_map. }
  clearbody mentions.
  assert (Hsplit : exists m tail,
             combine mentions (good ++ [] :: rest)
             = combine (firstn (List.length good) mentions) good ++ (m, []) :: tail).
  { clear - Hm. revert mentions Hm.
    induction good as [|g good IH]; intros mentions Hm.
    - destruct mentions as [|m mentions]; [simpl in Hm; lia|].
      exists m, (combine mentions rest). reflexivity.
    - destruct mentions as [|m0 mentions]; [simpl in Hm; lia|].
      destruct (IH mentions) as (m & tail & E); [simpl in Hm; lia|].
      exists m, tail. simpl. now rewrite E. }
  destruct Hsplit as (m & tail & ->).
  assert (Hpairs : Forall (fun p : string * list string => snd p <> [])
                          (combine (firstn (List.length good) mentions) good)).
  { apply Forall_forall. intros [m' e] Hin. apply in_combine_r in Hin.
    simpl. exact (proj1 (Forall_forall _ _) Hgood e Hin). }
  destruct (few_shot_loop data_to_eid entity_to_eid _ Hpairs 0 st) as (st1 & E & P).
  match type of E with for_each ?f ?l ?a ?s = _ =>
    assert (Hloop : for_each f (l ++ (m, []) :: tail) a s = (Raise IndexError, st1))
  end.
  { rewrite for_each_app, E. reflexivity. }
  rewrite (bind_raise _ _ _ _ _ Hloop).
  exists st1. split; [reflexivity | exact P].
Qed.

End FewShotEdges.

Lemma run_few_shot_empty_entity_witness :
  exists st',
    run_few_shot [("7", "Apache Tomcat", "1", "")]
                 [("tomcat", "7"); ("nginx", "8")]
                 [["Apache Tomcat"]; []] start
    = (Raise IndexError, st')
    /\ printed st' = [].
Proof.
  refine (run_few_shot_empty_entity [("7", "Apache Tomcat", "1", "")]
            [("tomcat", "7"); ("nginx", "8")] [["Apache Tomcat"]] [] start _ _).
  - repeat constructor. discriminate.
  - simpl. lia.
Defined.

Lemma run_few_shot_reports_witness :
  exists st',
    run_few_shot [("7", "Apache Tomcat", "1", "")]
                 [("tomcat", "7"); ("nginx", "8")]
                 [["Apache Tomcat"]; ["Nginx"]] start
    = (Ok tt, st')
    /\ printed st' =
         [OutRule; OutFewShotBanner 2; OutRule; OutFewShot (Ratio 1 2)].
Proof.
  refine (run_few_shot_reports [("7", "Apache Tomcat", "1", "")]
            [("tomcat", "7"); ("nginx", "8")]
            [["Apache Tomcat"]; ["Nginx"]] start _ _).
  - discriminate.
  - repeat constructor; discriminate.
Defined.

(** ** Reading a test file *)

Lemma split_no_sep (sep : ascii) (s : string) :
  contains sep s = false -> Py.split sep s = [s].
Proof.
  induction s as [|c s IH]; [reflexivity|].
  simpl. destruct (Ascii.eqb c sep); [discriminate|].
  simpl. intros H. now rewrite (IH H).
Qed.

Lemma split_at_sep (sep : ascii) (a b : string) :
  contains sep a = false ->
  Py.split sep (a ++ String sep b)%string = a :: Py.split sep b.
Proof.
  induction a as [|c a IH]; simpl.
  - intros _. now rewrite Ascii.eqb_refl.
  - destruct (Ascii.eqb c sep); [discriminate|].
    simpl. intros H. now rewrite (IH H).
Qed.

Lemma load_rows_none (test : list string) :
  fold_left (fun data_to_qid row =>
               match data_to_qid with
               | None => None
               | Some data_to_qid =>
                   match Py.split "009"%char row with
                   | [data; qid] => Some (dict_set data_to_qid data qid)
                   | _ => None
                   end
               end)
            test None = None.
Proof. induction test as [|row test IH]; [reflexivity | exact IH]. Qed.

Lemma dict_of_items_fold_wf {V : Type} (items : list (string * V)) :
  forall d, dict_wf d ->
            dict_wf (fold_left (fun d kv => dict_set d (fst kv) (snd kv)) items d).
Proof.
  induction items as [|kv items IH]; intros d Hwf; [exact Hwf|].
  simpl. apply IH. now apply dict_set_wf.
Qed.

Lemma dict_of_items_fold_keys {V : Type} (items : list (string * V)) (k : string) :
  forall d,
    In k (dict_keys (fold_left (fun d kv => dict_set d (fst kv) (snd kv)) items d))
    <-> In k (dict_keys d) \/ In k (map fst items).
Proof.
  induction items as [|kv items IH]; intros d; simpl; [tauto|].
  rewrite IH, dict_keys_set_in. intuition congruence.
Qed.

Lemma dict_of_items_fold_keep {V : Type} (items : list (string * V)) (k : string) :
  ~ In k (map fst items) ->
  forall d,
    dict_get (fold_left (fun d kv => dict_set d (fst kv) (snd kv)) items d) k
    = dict_get d k.
Proof.
  induction items as [|kv items IH]; intros Hout d; [reflexivity|].
  simpl in *. rewrite IH by tauto.
  apply dict_get_set_other. intros E. apply Hout. left. congruence.
Qed.

Lemma dict_of_items_last {V : Type} (pre post : list (string * V)) (k : string) (v : V) :
  ~ In k (map fst post) ->
  dict_get (dict_of_items (pre ++ (k, v) :: post)) k = Some v.
Proof.
  intros Hout. unfold dict_of_items. rewrite fold_left_app. simpl.
  rewrite dict_of_items_fold_keep by exact Hout.
  apply dict_get_set_same.
Qed.

Lemma load_rows_items (items : list (string * string)) :
  Forall (fun item => contains "009"%char (fst item) = false
                      /\ contains "009"%char (snd item) = false) items ->
  load_rows (map test_row items) = Some (dict_of_items items).
Proof.
  unfold load_rows, dict_of_items. intros H.
  generalize (@nil (string * string)).
  induction H as [|[m q] items [Hm Hq] _ IH]; intros d; [reflexivity|].
  cbn [map fold_left fst snd] in *.
  change (test_row (m, q)) with (m ++ String "009" q)%string.
  rewrite split_at_sep by exact Hm. rewrite split_no_sep by exact Hq.
  apply IH.
Qed.

(** X18. A test file in which every line is a mention, one tab and a
    label is read without error. The mentions of the resulting map are
    pairwise distinct and are exactly the mentions of the file; a mention
    that occurs on several lines keeps the label of its last line. *)
Theorem load_rows_last_label (items : list (string * string)) :
  Forall (fun item => contains "009"%char (fst item) = false
                      /\ contains "009"%char (snd item) = false) items ->
  exists data_to_qid,
    load_rows (map test_row items) = Some data_to_qid
    /\ dict_wf data_to_qid
    /\ (forall mention, In mention (dict_keys data_to_qid) <-> In mention (map fst items))
    /\ (forall pre mention label post,
           items = pre ++ (mention, label) :: post ->
           ~ In mention (map fst post) ->
           dict_get data_to_qid mention = Some label).
Proof.
  intros H. exists (dict_of_items items).
  split; [now apply load_rows_items|]. split; [|split].
  - apply dict_of_items_fold_wf. constructor.
  - intros mention. unfold dict_of_items. rewrite dict_of_items_fold_keys.
    simpl. tauto.
  - intros pre mention label post -> Hout. now apply dict_of_items_last.
Qed.

Lemma load_rows_last_label_witness :
  exists data_to_qid,
    load_rows [test_row ("nginx", "Q1"); test_row ("redis", "Q2");
               test_row ("nginx", "Q3")] = Some data_to_qid
    /\ dict_get data_to_qid "nginx" = Some "Q3".
Proof.
  destruct (load_rows_last_label [("nginx", "Q1"); ("redis", "Q2"); ("nginx", "Q3")])
    as (d & E & _ & _ & Hlast).
  - repeat constructor.
  - exists d. split; [exact E|].
    exact (Hlast [("nginx", "Q1"); ("redis", "Q2")] "nginx" "Q3" [] eq_refl
                 (fun H : In "nginx" [] => H)).
Defined.

(** X19. A line without a tab (a blank line, say) or with two tabs makes
    the unpacking fail, wherever it stands in the file and whatever the
    other lines are. *)
Theorem load_rows_malformed (before after : list string) (row : string) :
  (contains "009"%char row = false
   \/ exists a b c, contains "009"%char a = false
                    /\ contains "009"%char b = false
                    /\ row = (a ++ String "009" (b ++ String "009" c))%string) ->
  load_rows (before ++ row :: after) = None.
Proof.
  intros H. unfold load_rows. rewrite fold_left_app. cbn [fold_left].
  match goal with |- context [fold_left ?f before (Some [])] =>
    destruct (fold_left f before (Some [])) as [d|] end.
  2:{ apply load_rows_none. }
  destruct H as [H|(a & b & c & Ha & Hb & ->)].
  - rewrite split_no_sep by exact H. apply load_rows_none.
  - rewrite split_at_sep by exact Ha. rewrite split_at_sep by exact Hb.
    pose proof (split_not_nil "009"%char c) as Hne.
    destruct (Py.split "009"%char c); [congruence|]. apply load_rows_none.
Qed.

Lemma load_rows_malformed_witness :
  contains "009"%char "" = false
  /\ load_rows ([test_row ("nginx", "Q1")] ++ "" :: [test_row ("redis", "Q2")]) = None.
Proof.
  split; [reflexivity|].
  exact (load_rows_malformed [test_row ("nginx", "Q1")] [test_row ("redis", "Q2")] ""
           (or_introl eq_refl)).
Defined.

(** ** Utils: [preprocess_tech_stack_for_sim] *)

Lemma sub_non_ascii_ascii (b : bool) (s : Utils.ustr) :
  Forall (fun c => Utils.is_ascii c = true) (Utils.sub_non_ascii b s).
Proof.
  revert b. induction s as [|c s IH]; intros b; simpl; [constructor|].
  destruct (Utils.is_ascii c) eqn:E.
  - constructor; [exact E | apply IH].
  - destruct b; [apply IH|]. constructor; [reflexivity | apply IH].
Qed.

Lemma sub_non_ascii_id (b : bool) (s : Utils.ustr) :
  Forall (fun c => Utils.is_ascii c = true) s -> Utils.sub_non_ascii b s = s.
Proof.
  intros H. revert b. induction H as [|c s Hc _ IH]; intros b; simpl; [reflexivity|].
  rewrite Hc. now rewrite IH.
Qed.

Lemma lstrip_suffix (s : Utils.ustr) :
  exists pre, s = pre ++ Utils.lstrip s
              /\ Forall (fun c => Utils.is_space c = true) pre.
Proof.
  induction s as [|c s (pre & E & Hpre)]; simpl.
  - exists []. split; [reflexivity | constructor].
  - destruct (Utils.is_space c) eqn:Ec.
    + exists (c :: pre). split; [simpl; now rewrite <- E | now constructor].
    + exists []. split; [reflexivity | constructor].
Qed.

Lemma lstrip_head (s : Utils.ustr) (c : N) (t : Utils.ustr) :
  Utils.lstrip s = c :: t -> Utils.is_space c = false.
Proof.
  induction s as [|x s IH]; simpl; [discriminate|].
  destruct (Utils.is_space x) eqn:E; [exact IH|].
  intros [= <- _]. exact E.
Qed.

Lemma lstrip_space (c : N) (t : Utils.ustr) :
  Utils.is_space c = true -> Utils.lstrip (c :: t) = Utils.lstrip t.
Proof. intros H. simpl. now rewrite H. Qed.

Lemma lstrip_nonspace (c : N) (t : Utils.ustr) :
  Utils.is_space c = false -> Utils.lstrip (c :: t) = c :: t.
Proof. intros H. simpl. now rewrite H. Qed.

Lemma lstrip_app_nonspace (l : Utils.ustr) (c : N) :
  Utils.is_space c = false -> Utils.lstrip (l ++ [c]) = Utils.lstrip l ++ [c].
Proof.
  intros Hc. induction l as [|x l IH]; simpl.
  - now rewrite Hc.
  - destruct (Utils.is_space x); [exact IH | reflexivity].
Qed.

Lemma rstrip_cons_nonspace (c : N) (t : Utils.ustr) :
  Utils.is_space c = false -> Utils.rstrip (c :: t) = c :: Utils.rstrip t.
Proof.
  intros Hc. unfold Utils.rstrip. simpl rev.
  rewrite lstrip_app_nonspace by exact Hc.
  now rewrite rev_app_distr.
Qed.

Lemma rstrip_last (s t : Utils.ustr) (c : N) :
  Utils.rstrip s = t ++ [c] -> Utils.is_space c = false.
Proof.
  unfold Utils.rstrip. intros H.
  apply (f_equal (@rev N)) in H. rewrite rev_involutive, rev_app_distr in H.
  simpl in H. exact (lstrip_head _ _ _ H).
Qed.

Lemma Forall_lstrip (P : N -> Prop) (s : Utils.ustr) :
  Forall P s -> Forall P (Utils.lstrip s).
Proof.
  intros H. destruct (lstrip_suffix s) as (pre & E & _).
  rewrite E in H. now apply Forall_app in H.
Qed.

Lemma Forall_strip (P : N -> Prop) (s : Utils.ustr) :
  Forall P s -> Forall P (Utils.strip s).
Proof.
  intros H. unfold Utils.strip, Utils.rstrip.
  apply Forall_rev, Forall_lstrip, Forall_rev, Forall_lstrip, H.
Qed.

Lemma strip_ends (s : Utils.ustr) :
  (forall c t, Utils.strip s = c :: t -> Utils.is_space c = false)
  /\ (forall t c, Utils.strip s = t ++ [c] -> Utils.is_space c = false).
Proof.
  unfold Utils.strip. split.
  - intros c t. destruct (Utils.lstrip s) as [|x l] eqn:E.
    + unfold Utils.rstrip. simpl. discriminate.
    + pose proof (lstrip_head _ _ _ E) as Hx.
      rewrite rstrip_cons_nonspace by exact Hx. now intros [= <- _].
  - intros t c. apply rstrip_last.
Qed.

(** Stripping a padded clean string gives the string back. *)
Lemma strip_padded (s : Utils.ustr) :
  (forall c t, s = c :: t -> Utils.is_space c = false) ->
  (forall t c, s = t ++ [c] -> Utils.is_space c = false) ->
  Utils.strip ([32%N] ++ s ++ [32%N]) = s.
Proof.
  intros Hhead Hlast. unfold Utils.strip.
  change ([32%N] ++ s ++ [32%N]) with (32%N :: (s ++ [32%N])).
  rewrite (lstrip_space 32%N) by reflexivity.
  destruct s as [|c t]; [reflexivity|].
  cbn [app]. rewrite lstrip_nonspace by exact (Hhead c t eq_refl).
  unfold Utils.rstrip.
  change (c :: t ++ [32%N]) with ((c :: t) ++ [32%N]).
  rewrite rev_app_distr.
  change (rev [32%N] ++ rev (c :: t)) with (32%N :: rev (c :: t)).
  rewrite (lstrip_space 32%N) by reflexivity.
  destruct (rev (c :: t)) as [|x l] eqn:E.
  - apply (f_equal (@rev N)) in E. rewrite rev_involutive in E. discriminate.
  - assert (Hx : Utils.is_space x = false).
    { apply (Hlast (rev l) x).
      apply (f_equal (@rev N)) in E. rewrite rev_involutive in E. exact E. }
    rewrite lstrip_nonspace by exact Hx.
    rewrite <- E. apply rev_involutive.
Qed.

(** X20. The result holds only code points of the class [\x00-\x7F] and
    has no white space at either end. *)
Theorem preprocess_is_clean (tech_stack : Utils.ustr) :
  Utils.clean (Utils.preprocess_tech_stack_for_sim tech_stack).
Proof.
  unfold Utils.clean, Utils.preprocess_tech_stack_for_sim. split.
  - apply Forall_strip, sub_non_ascii_ascii.
  - apply strip_ends.
Qed.

Lemma preprocess_clean_id (s : Utils.ustr) :
  Utils.clean s -> Utils.preprocess_tech_stack_for_sim s = s.
Proof.
  intros (Hascii & Hhead & Hlast). unfold Utils.preprocess_tech_stack_for_sim.
  rewrite sub_non_ascii_id.
  - now apply strip_padded.
  - apply Forall_app. split; [repeat constructor|].
    apply Forall_app. split; [exact Hascii | repeat constructor].
Qed.

(** X21. Preprocessing twice is the same as preprocessing once; a string
    that already is in the class and has no white space at its ends is
    returned as it is. *)
Theorem preprocess_idempotent (tech_stack : Utils.ustr) :
  Utils.preprocess_tech_stack_for_sim (Utils.preprocess_tech_stack_for_sim tech_stack)
  = Utils.preprocess_tech_stack_for_sim tech_stack
  /\ (Utils.clean tech_stack ->
      Utils.preprocess_tech_stack_for_sim tech_stack = tech_stack).
Proof.
  split; [|apply preprocess_clean_id].
  apply preprocess_clean_id.
  unfold Utils.clean, Utils.preprocess_tech_stack_for_sim. split.
  - apply Forall_strip, sub_non_ascii_ascii.
  - apply strip_ends.
Qed.

Lemma preprocess_idempotent_witness :
  Utils.clean [97; 32; 98]%N
  /\ Utils.preprocess_tech_stack_for_sim [97; 32; 98]%N = [97; 32; 98]%N.
Proof.
  assert (H : Utils.clean [97; 32; 98]%N).
  { unfold Utils.clean. split; [repeat constructor|]. split.
    - intros c t [= <- _]. reflexivity.
    - intros t c E. destruct t as [|x [|y [|z t]]]; try discriminate E.
      + injection E as _ _ <-. reflexivity.
      + destruct t; discriminate E. }
  split; [exact H|].
  exact (proj2 (preprocess_idempotent [97; 32; 98]%N) H).
Defined.

Lemma filter_sub_non_ascii (b : bool) (s : Utils.ustr) :
  filter Utils.is_content (Utils.sub_non_ascii b s) = filter Utils.is_content s.
Proof.
  revert b. induction s as [|c s IH]; intros b; simpl; [reflexivity|].
  unfold Utils.is_content at 2. destruct (Utils.is_ascii c) eqn:E.
  - simpl. unfold Utils.is_content at 1. rewrite E. now rewrite IH.
  - simpl. destruct b; [apply IH|]. simpl. apply IH.
Qed.

Lemma filter_lstrip (s : Utils.ustr) :
  filter Utils.is_content (Utils.lstrip s) = filter Utils.is_content s.
Proof.
  induction s as [|c s IH]; simpl; [reflexivity|].
  destruct (Utils.is_space c) eqn:E; [|reflexivity].
  unfold Utils.is_content at 2. rewrite E, Bool.andb_false_r. exact IH.
Qed.

Lemma filter_strip (s : Utils.ustr) :
  filter Utils.is_content (Utils.strip s) = filter Utils.is_content s.
Proof.
  unfold Utils.strip, Utils.rstrip.
  rewrite filter_rev, filter_lstrip, filter_rev, rev_involutive.
  apply filter_lstrip.
Qed.

(** X22. The code points of the class that are not white space come out
    exactly as they went in: none is dropped, added or moved. *)
Theorem preprocess_keeps_content (tech_stack : Utils.ustr) :
  filter Utils.is_content (Utils.preprocess_tech_stack_for_sim tech_stack)
  = filter Utils.is_content tech_stack.
Proof.
  unfold Utils.preprocess_tech_stack_for_sim.
  rewrite filter_strip, filter_sub_non_ascii, !filter_app. simpl.
  now rewrite app_nil_r.
Qed.

Lemma sub_non_ascii_prefix (c : N) (a rest : Utils.ustr) (b : bool) :
  Forall (fun x => Utils.is_ascii x = true) (c :: a) ->
  Utils.sub_non_ascii b ((c :: a) ++ rest) = (c :: a) ++ Utils.sub_non_ascii false rest.
Proof.
  intros H. inversion H as [|? ? Hc Ha]; subst. cbn [app Utils.sub_non_ascii].
  rewrite Hc. f_equal. clear H Hc.
  induction Ha as [|x a Hx _ IH]; [reflexivity|].
  cbn [app Utils.sub_non_ascii]. rewrite Hx. now rewrite IH.
Qed.

Lemma sub_non_ascii_in_run (run rest : Utils.ustr) :
  Forall (fun x => Utils.is_ascii x = false) run ->
  Utils.sub_non_ascii true (run ++ rest) = Utils.sub_non_ascii true rest.
Proof.
  induction 1 as [|x run Hx _ IH]; [reflexivity|].
  cbn [app Utils.sub_non_ascii]. now rewrite Hx.
Qed.

(** X23. A run of code points outside the class, however long, standing
    between two parts inside the class becomes exactly one space. *)
Theorem preprocess_collapses_run (ca cb r : N) (a b run : Utils.ustr) :
  Forall (fun x => Utils.is_ascii x = true) (ca :: a) ->
  Forall (fun x => Utils.is_ascii x = true) (b ++ [cb]) ->
  Forall (fun x => Utils.is_ascii x = false) (r :: run) ->
  Utils.is_space ca = false ->
  Utils.is_space cb = false ->
  Utils.preprocess_tech_stack_for_sim ((ca :: a) ++ (r :: run) ++ (b ++ [cb]))
  = (ca :: a) ++ [32%N] ++ (b ++ [cb]).
Proof.
  intros Ha Hb Hrun Hca Hcb. unfold Utils.preprocess_tech_stack_for_sim.
  inversion Hrun as [|? ? Hr Hrun']; subst.
  assert (E1 : [32%N] ++ ((ca :: a) ++ (r :: run) ++ b ++ [cb]) ++ [32%N]
               = (32%N :: ca :: a) ++ (r :: run) ++ ((b ++ [cb]) ++ [32%N])).
  { cbn [app]. repeat (rewrite <- app_assoc; cbn [app]). reflexivity. }
  assert (Hsub : Utils.sub_non_ascii false
                   ([32%N] ++ ((ca :: a) ++ (r :: run) ++ b ++ [cb]) ++ [32%N])
                 = [32%N] ++ ((ca :: a) ++ [32%N] ++ b ++ [cb]) ++ [32%N]).
  { rewrite E1.
    rewrite sub_non_ascii_prefix by (constructor; [reflexivity | exact Ha]).
    cbn [app Utils.sub_non_ascii]. rewrite Hr.
    rewrite sub_non_ascii_in_run by exact Hrun'.
    rewrite sub_non_ascii_id.
    - repeat (rewrite <- app_assoc; cbn [app]). reflexivity.
    - apply Forall_app. split; [exact Hb | repeat constructor]. }
  rewrite Hsub. apply strip_padded.
  - intros c t [= <- _]. exact Hca.
  - intros t c E.
    change ((ca :: a) ++ [32%N] ++ b ++ [cb]) with ((ca :: a) ++ 32%N :: b ++ [cb]) in E.
    rewrite app_comm_cons, app_assoc in E.
    apply app_inj_tail in E. destruct E as [_ <-]. exact Hcb.
Qed.

Lemma preprocess_collapses_run_witness :
  Utils.preprocess_tech_stack_for_sim [97; 233; 234; 960; 98]%N = [97; 32; 98]%N.
Proof.
  refine (preprocess_collapses_run 97 98 233 [] [] [234; 960]%N _ _ _ eq_refl eq_refl);
    repeat constructor.
Defined.

(** ** Utils: [mergeDicts] *)

Lemma mergeDicts_fold (result : option (dict (dict string)))
      (app_tech : dict (dict string)) :
  Utils.mergeDicts result (Some app_tech)
  = fold_left Utils.merge_item app_tech (Utils.or_empty result).
Proof.
  unfold Utils.mergeDicts, Utils.or_empty.
  destruct result as [[|x r]|]; destruct app_tech as [|y a]; reflexivity.
Qed.

Lemma dict_set_same_id {V : Type} (d : dict V) (k : string) (v : V) :
  dict_get d k = Some v -> dict_set d k v = d.
Proof.
  induction d as [|[k' v'] d IH]; simpl; [discriminate|].
  destruct (String.eqb_spec k' k) as [->|_].
  - now intros [= ->].
  - intros H. now rewrite IH.
Qed.

Lemma dict_get_set {V : Type} (d : dict V) (k k0 : string) (v : V) :
  dict_get (dict_set d k v) k0 = if String.eqb k0 k then Some v else dict_get d k0.
Proof.
  destruct (String.eqb_spec k0 k) as [->|Hne].
  - apply dict_get_set_same.
  - now apply dict_get_set_other.
Qed.

Lemma dict_get_In {V : Type} (d : dict V) (k : string) (v : V) :
  dict_wf d -> In (k, v) d -> dict_get d k = Some v.
Proof.
  unfold dict_wf. induction d as [|[k' v'] d IH]; simpl; [tauto|].
  intros Hnd [H|H].
  - injection H as -> ->. now rewrite String.eqb_refl.
  - inversion Hnd as [|? ? Hout Hnd']; subst.
    destruct (String.eqb_spec k' k) as [->|_].
    + exfalso. apply Hout. change k with (fst (k, v)). now apply in_map.
    + now apply IH.
Qed.

Lemma get2_merge_entry (s0 : string) (result : dict (dict string))
      (tech version s t : string) :
  Utils.get2 (Utils.merge_entry s0 result (tech, version)) s t
  = if String.eqb s s0 && String.eqb t tech then Some version
    else Utils.get2 result s t.
Proof.
  unfold Utils.merge_entry, Utils.get2.
  destruct (dict_get result s0) as [inner|] eqn:E.
  - rewrite E, !dict_get_set.
    destruct (String.eqb_spec s s0) as [->|_]; simpl; [|reflexivity].
    rewrite dict_get_set, E. reflexivity.
  - rewrite dict_get_set_same, dict_set_set, !dict_get_set.
    destruct (String.eqb_spec s s0) as [->|_]; simpl; [|reflexivity].
    rewrite E. simpl. rewrite (String.eqb_sym tech t).
    destruct (String.eqb t tech); reflexivity.
Qed.

Lemma get2_merge_obj (s0 : string) (obj : dict string) (s t : string) :
  dict_wf obj ->
  forall result,
    Utils.get2 (fold_left (Utils.merge_entry s0) obj result) s t
    = if String.eqb s s0
      then match dict_get obj t with
           | Some v => Some v
           | None => Utils.get2 result s t
           end
      else Utils.get2 result s t.
Proof.
  unfold dict_wf.
  induction obj as [|[tech version] obj IH]; intros Hnd result.
  - simpl. now destruct (String.eqb s s0).
  - inversion Hnd as [|? ? Hout Hnd']; subst.
    cbn [fold_left]. rewrite (IH Hnd'), get2_merge_entry.
    destruct (String.eqb s s0); simpl; [|reflexivity].
    destruct (String.eqb_spec tech t) as [->|Hne].
    + rewrite (dict_get_not_in_keys obj t Hout), String.eqb_refl. reflexivity.
    + destruct (String.eqb_spec t tech); [congruence|]. reflexivity.
Qed.

Lemma get2_merge_item (item : string * dict string) (s t : string) :
  dict_wf (snd item) ->
  forall result,
    Utils.get2 (Utils.merge_item result item) s t
    = if String.eqb s (fst item)
      then match dict_get (snd item) t with
           | Some v => Some v
           | None => Utils.get2 result s t
           end
      else Utils.get2 result s t.
Proof.
  destruct item as [s0 obj]. cbn [fst snd]. intros Hwf result.
  unfold Utils.merge_item. destruct obj as [|e obj].
  - simpl. now destruct (String.eqb s s0).
  - now apply get2_merge_obj.
Qed.

Lemma get2_merge_all (app_tech : dict (dict string)) (s t : string) :
  Utils.nested_wf app_tech ->
  forall result,
    Utils.get2 (fold_left Utils.merge_item app_tech result) s t
    = match Utils.get2 app_tech s t with
      | Some v => Some v
      | None => Utils.get2 result s t
      end.
Proof.
  unfold Utils.nested_wf, dict_wf. intros [Hnd Hin].
  induction app_tech as [|[s0 obj] a IH]; intros result; [reflexivity|].
  inversion Hnd as [|? ? Hout Hnd']; subst.
  inversion Hin as [|? ? Hobj Hin']; subst.
  cbn [fold_left]. rewrite (IH Hnd' Hin'), get2_merge_item by exact Hobj.
  cbn [fst snd].
  assert (Hhead : Utils.get2 ((s0, obj) :: a) s t
                  = if String.eqb s0 s then dict_get obj t else Utils.get2 a s t).
  { unfold Utils.get2. simpl. now destruct (String.eqb s0 s). }
  rewrite Hhead. destruct (String.eqb_spec s0 s) as [->|Hne].
  - assert (Ha : Utils.get2 a s t = None).
    { unfold Utils.get2. now rewrite (dict_get_not_in_keys a s Hout). }
    rewrite Ha, String.eqb_refl. reflexivity.
  - destruct (String.eqb_spec s s0); [congruence|]. reflexivity.
Qed.

(** X24. With pairwise distinct keys in [app_tech] and in each of its
    dictionaries, a two-level lookup in the merged result gives the version
    of [app_tech] when it has one and the version of [result] otherwise. *)
Theorem mergeDicts_lookup (result : option (dict (dict string)))
        (app_tech : dict (dict string)) (snippet tech : string) :
  Utils.nested_wf app_tech ->
  Utils.get2 (Utils.mergeDicts result (Some app_tech)) snippet tech
  = match Utils.get2 app_tech snippet tech with
    | Some version => Some version
    | None => Utils.get2 (Utils.or_empty result) snippet tech
    end.
Proof.
  intros Hwf. rewrite mergeDicts_fold. now apply get2_merge_all.
Qed.

Lemma mergeDicts_lookup_witness :
  Utils.nested_wf [("app.py", [("flask", "2.0"); ("redis", "4.1")])]
  /\ Utils.get2 (Utils.mergeDicts (Some [("app.py", [("flask", "1.1"); ("nginx", "1.0")])])
                                  (Some [("app.py", [("flask", "2.0"); ("redis", "4.1")])]))
                "app.py" "flask" = Some "2.0".
Proof.
  assert (H : Utils.nested_wf [("app.py", [("flask", "2.0"); ("redis", "4.1")])]).
  { unfold Utils.nested_wf, dict_wf. simpl. split.
    - repeat constructor. intros [].
    - repeat constructor; simpl; intuition discriminate. }
  split; [exact H|].
  exact (mergeDicts_lookup (Some [("app.py", [("flask", "1.1"); ("nginx", "1.0")])])
           [("app.py", [("flask", "2.0"); ("redis", "4.1")])] "app.py" "flask" H).
Defined.

Lemma dict_set_not_nil {V : Type} (d : dict V) (k : string) (v : V) :
  dict_set d k v <> [].
Proof. destruct d as [|[k' v'] d]; simpl; [|destruct (String.eqb k' k)]; discriminate. Qed.

Lemma merge_entry_get (s0 : string) (result : dict (dict string))
      (entry : string * string) (s : string) :
  dict_get (Utils.merge_entry s0 result entry) s
  = if String.eqb s s0
    then Some (dict_set (match dict_get result s0 with
                         | Some inner => inner
                         | None => []
                         end) (fst entry) (snd entry))
    else dict_get result s.
Proof.
  destruct entry as [tech version]. unfold Utils.merge_entry. cbn [fst snd].
  destruct (dict_get result s0) as [inner|] eqn:E.
  - rewrite E. apply dict_get_set.
  - rewrite dict_get_set_same, dict_set_set. apply dict_get_set.
Qed.

Lemma merge_entry_keys (s0 : string) (result : dict (dict string))
      (entry : string * string) (s : string) :
  In s (dict_keys (Utils.merge_entry s0 result entry)) <-> s = s0 \/ In s (dict_keys result).
Proof.
  destruct entry as [tech version]. unfold Utils.merge_entry.
  destruct (dict_get result s0) as [inner|] eqn:E.
  - rewrite E. apply dict_keys_set_in.
  - rewrite dict_get_set_same, dict_set_set. apply dict_keys_set_in.
Qed.

Lemma merge_obj_keys (s0 : string) (obj : dict string) (s : string) :
  forall result,
    In s (dict_keys (fold_left (Utils.merge_entry s0) obj result))
    <-> (obj <> [] /\ s = s0) \/ In s (dict_keys result).
Proof.
  induction obj as [|e obj IH]; intros result; cbn [fold_left].
  - intuition congruence.
  - rewrite IH, merge_entry_keys. split.
    + intros [[_ ->]|[->|H]]; [left | left | now right]; (split; [discriminate | reflexivity]).
    + intros [[_ ->]|H]; right; [now left | now right].
Qed.

Lemma merge_obj_empty_values (s0 : string) (obj : dict string) (s : string) :
  forall result,
    dict_get (fold_left (Utils.merge_entry s0) obj result) s = Some [] ->
    dict_get result s = Some [].
Proof.
  induction obj as [|e obj IH]; intros result H; cbn [fold_left] in H; [exact H|].
  apply IH in H. rewrite merge_entry_get in H.
  destruct (String.eqb s s0); [|exact H].
  injection H as H. now apply dict_set_not_nil in H.
Qed.

(** X25. The snippets of the merged result are those of [result] and
    those that [app_tech] binds to a non-empty dictionary, and merging never
    leaves a snippet with an empty dictionary that [result] did not have. *)
Theorem mergeDicts_snippets (result : option (dict (dict string)))
        (app_tech : dict (dict string)) (snippet : string) :
  (In snippet (dict_keys (Utils.mergeDicts result (Some app_tech)))
   <-> In snippet (dict_keys (Utils.or_empty result))
       \/ exists obj, In (snippet, obj) app_tech /\ obj <> [])
  /\ (dict_get (Utils.mergeDicts result (Some app_tech)) snippet = Some [] ->
      dict_get (Utils.or_empty result) snippet = Some []).
Proof.
  rewrite mergeDicts_fold. generalize (Utils.or_empty result). clear result.
  induction app_tech as [|[s0 obj] a IH]; intros result; cbn [fold_left].
  - split; [|tauto]. split; [tauto|]. intros [H|(obj & [] & _)]. exact H.
  - destruct (IH (Utils.merge_item result (s0, obj))) as [IHk IHv]. split.
    + rewrite IHk. unfold Utils.merge_item.
      assert (Hk : In snippet
                      (dict_keys match obj with
                                 | [] => result
                                 | _ :: _ => fold_left (Utils.merge_entry s0) obj result
                                 end)
                   <-> (obj <> [] /\ snippet = s0) \/ In snippet (dict_keys result)).
      { destruct obj as [|e obj]; [intuition congruence | apply merge_obj_keys]. }
      rewrite Hk. split.
      * intros [[[Hne ->]|H]|(o & Ho & Hne)].
        -- right. exists obj. split; [now left | exact Hne].
        -- now left.
        -- right. exists o. split; [now right | exact Hne].
      * intros [H|(o & [Ho|Ho] & Hne)].
        -- left. now right.
        -- injection Ho as -> ->. left. left. now split.
        -- right. now exists o.
    + intros H. apply IHv in H. unfold Utils.merge_item in H.
      destruct obj as [|e obj]; [exact H|].
      now apply merge_obj_empty_values in H.
Qed.

Lemma mergeDicts_snippets_witness :
  In "b.py" (dict_keys (Utils.mergeDicts (Some [("a.py", [("flask", "1.1")])])
                                         (Some [("b.py", [("redis", "4.1")]); ("c.py", [])])))
  /\ ~ In "c.py" (dict_keys (Utils.mergeDicts (Some [("a.py", [("flask", "1.1")])])
                                              (Some [("b.py", [("redis", "4.1")]); ("c.py", [])]))).
Proof.
  split.
  - apply (proj1 (mergeDicts_snippets (Some [("a.py", [("flask", "1.1")])])
                    [("b.py", [("redis", "4.1")]); ("c.py", [])] "b.py")).
    right. exists [("redis", "4.1")]. split; [now left | discriminate].
  - intros H.
    apply (proj1 (mergeDicts_snippets (Some [("a.py", [("flask", "1.1")])])
                    [("b.py", [("redis", "4.1")]); ("c.py", [])] "c.py")) in H.
    destruct H as [[H|[]]|(obj & [H|[H|[]]] & Hne)]; try discriminate H.
    injection H as <-. congruence.
Defined.

Lemma merge_entry_noop (s0 : string) (result : dict (dict string))
      (tech version : string) :
  Utils.get2 result s0 tech = Some version ->
  Utils.merge_entry s0 result (tech, version) = result.
Proof.
  unfold Utils.get2, Utils.merge_entry.
  destruct (dict_get result s0) as [inner|] eqn:E; [|discriminate].
  intros H. rewrite E. rewrite (dict_set_same_id inner tech version H).
  now apply dict_set_same_id.
Qed.

Lemma merge_obj_noop (s0 : string) (obj : dict string) (result : dict (dict string)) :
  (forall tech version, In (tech, version) obj ->
                        Utils.get2 result s0 tech = Some version) ->
  fold_left (Utils.merge_entry s0) obj result = result.
Proof.
  induction obj as [|[tech version] obj IH]; intros H; [reflexivity|].
  cbn [fold_left]. rewrite merge_entry_noop by (apply H; now left).
  apply IH. intros t v Hin. apply H. now right.
Qed.

Lemma merge_all_noop (app_tech result : dict (dict string)) :
  (forall snippet obj tech version,
      In (snippet, obj) app_tech -> In (tech, version) obj ->
      Utils.get2 result snippet tech = Some version) ->
  fold_left Utils.merge_item app_tech result = result.
Proof.
  induction app_tech as [|[s0 obj] a IH]; intros H; [reflexivity|].
  cbn [fold_left].
  assert (E : Utils.merge_item result (s0, obj) = result).
  { unfold Utils.merge_item. destruct obj as [|e obj]; [reflexivity|].
    apply merge_obj_noop. intros t v Hin. apply (H s0 (e :: obj)); [now left | exact Hin]. }
  rewrite E. apply IH. intros s o t v Hs Ho. apply (H s o); [now right | exact Ho].
Qed.

(** X26. With pairwise distinct keys in [app_tech] and in each of its
    dictionaries, merging [app_tech] a second time changes nothing. *)
Theorem mergeDicts_idempotent (result : option (dict (dict string)))
        (app_tech : dict (dict string)) :
  Utils.nested_wf app_tech ->
  Utils.mergeDicts (Some (Utils.mergeDicts result (Some app_tech))) (Some app_tech)
  = Utils.mergeDicts result (Some app_tech).
Proof.
  intros Hwf. rewrite (mergeDicts_fold (Some _)). cbn [Utils.or_empty].
  apply merge_all_noop. intros s obj t v Hs Ho.
  rewrite mergeDicts_fold, get2_merge_all by exact Hwf.
  destruct Hwf as [Hnd Hin].
  assert (E : Utils.get2 app_tech s t = Some v).
  { unfold Utils.get2. rewrite (dict_get_In app_tech s obj Hnd Hs).
    apply dict_get_In; [|exact Ho].
    exact (proj1 (Forall_forall _ _) Hin (s, obj) Hs). }
  now rewrite E.
Qed.

Lemma mergeDicts_idempotent_witness :
  Utils.nested_wf [("app.py", [("flask", "2.0"); ("redis", "4.1")])]
  /\ Utils.mergeDicts
       (Some (Utils.mergeDicts (Some [("app.py", [("flask", "1.1")])])
                               (Some [("app.py", [("flask", "2.0"); ("redis", "4.1")])])))
       (Some [("app.py", [("flask", "2.0"); ("redis", "4.1")])])
     = [("app.py", [("flask", "2.0"); ("redis", "4.1")])].
Proof.
  assert (H : Utils.nested_wf [("app.py", [("flask", "2.0"); ("redis", "4.1")])]).
  { unfold Utils.nested_wf, dict_wf. simpl. split.
    - repeat constructor. intros [].
    - repeat constructor; simpl; intuition discriminate. }
  split; [exact H|].
  exact (eq_trans
           (mergeDicts_idempotent (Some [("app.py", [("flask", "1.1")])])
              [("app.py", [("flask", "2.0"); ("redis", "4.1")])] H)
           eq_refl).
Defined.
